(** * SpectreCore: message outlining and history formatting

    A shallow embedding of [utils/message_utils.py]: the helper
    [_safe_isinstance] and the two static methods of [MessageUtils],
    [outline_message_list] and [format_history_for_llm].

    Python strings are byte strings here (UTF-8, as the source file stores its
    literals); an object's attribute dictionary is a [gmap]; the calls the
    module makes to its collaborators (the captioning client, the filesystem,
    [json.loads], [datetime]) are parameters of the development, and the
    calls to the captioning client are recorded in a trace that is threaded
    through a small state-and-exception monad. *)

From Stdlib Require Import String Ascii ZArith List DecimalString Lia.
From stdpp Require Import base option list strings gmap.

Local Open Scope string_scope.
Set Warnings "-register-all".

(** ** Python values *)

Module Py.

(** The values an attribute of a message component holds. *)
Inductive value : Type :=
| VNone
| VStr (s : string)
| VInt (z : Z).

(** Truth value of [v] in a condition ([if v], [v or d]). *)
Definition truthy (v : value) : bool :=
  match v with
  | VNone => false
  | VStr s => negb (String.eqb s "")
  | VInt z => negb (Z.eqb z 0)
  end.

(** Truth value of an [Optional[str]]. *)
Definition truthy_opt (o : option string) : bool :=
  match o with
  | Some s => negb (String.eqb s "")
  | None => false
  end.

(** [str(v)], what a replacement field [{v}] of an f-string renders. *)
Definition str (v : value) : string :=
  match v with
  | VNone => "None"
  | VStr s => s
  | VInt z => NilZero.string_of_int (Z.to_int z)
  end.

Definition str_opt (o : option string) : string :=
  match o with
  | Some s => s
  | None => "None"
  end.

(** [s[n:]] for [0 <= n]. *)
Fixpoint slice_from (n : nat) (s : string) : string :=
  match n, s with
  | O, _ => s
  | S _, EmptyString => EmptyString
  | S n', String _ r => slice_from n' r
  end.

(** [k in s] for two strings: [k] occurs in [s]. *)
Fixpoint contains (k s : string) : bool :=
  String.prefix k s ||
  match s with
  | EmptyString => false
  | String _ r => contains k r
  end.

Definition lower_ascii (c : ascii) : ascii :=
  let n := nat_of_ascii c in
  if (65 <=? n)%nat && (n <=? 90)%nat then ascii_of_nat (n + 32) else c.

(** [s.lower()]. The result is only ever compared with the ASCII keys of
    [type_mapping]: the upper-case ASCII letters are mapped to lower case,
    and so is the Kelvin sign U+212A (bytes E2 84 AA), the one character
    outside ASCII whose lower case is an ASCII letter; every other byte is
    kept, so that the result is an ASCII key exactly when Python's is. *)
Fixpoint lower (s : string) : string :=
  match s with
  | String "226" (String "132" (String "170" r)) => String "k" (lower r)
  | String c r => String (lower_ascii c) (lower r)
  | EmptyString => EmptyString
  end.

(** What [json.loads] builds. A dictionary is the list of its items, in
    insertion order, with distinct keys. *)
Inductive json : Type :=
| JNull
| JBool (b : bool)
| JInt (z : Z)
| JFloat (repr : string)
| JStr (s : string)
| JArr (l : list json)
| JObj (items : list (string * json)).

Fixpoint dict_get (k : string) (items : list (string * json)) : option json :=
  match items with
  | [] => None
  | (k', v) :: r => if String.eqb k' k then Some v else dict_get k r
  end.

Definition has_key (k : string) (items : list (string * json)) : bool :=
  match dict_get k items with
  | Some _ => true
  | None => false
  end.

Definition is_str (k : string) (v : json) : bool :=
  match v with
  | JStr s => String.eqb s k
  | _ => false
  end.

End Py.

Import Py.

Definition LF : string := String "010" EmptyString.

(** ** Exceptions, results and the monad of the module *)

(** The exceptions (instances of [Exception]) the module meets. [Fault] is
    whatever a collaborator raises. *)
Inductive exn : Type :=
| AttributeError (attr : string)
| TypeError
| Fault (what : string).

Inductive result (A : Type) : Type :=
| Ok (a : A)
| Raise (e : exn).
Arguments Ok {A} a.
Arguments Raise {A} e.

(** The arguments of the calls made to the captioning client, oldest first. *)
Definition trace : Type := list string.

Definition M (A : Type) : Type := trace -> result A * trace.

Definition ret {A} (a : A) : M A := fun t => (Ok a, t).

Definition raise {A} (e : exn) : M A := fun t => (Raise e, t).

Definition bind {A B} (m : M A) (k : A -> M B) : M B :=
  fun t =>
    match m t with
    | (Ok a, t') => k a t'
    | (Raise e, t') => (Raise e, t')
    end.

Definition lift {A} (r : result A) : M A := fun t => (r, t).

(** [try: body except Exception: handler]. *)
Definition try_except {A} (body : M A) (handler : exn -> M A) : M A :=
  fun t =>
    match body t with
    | (Ok a, t') => (Ok a, t')
    | (Raise e, t') => handler e t'
    end.

Declare Scope py_scope.
Delimit Scope py_scope with py.
Notation "x <- m ;; k" := (bind m (fun x => k))
  (at level 100, m at next level, right associativity) : py_scope.
Local Open Scope py_scope.

(** ** Message components *)

(** An object of a class the module does not import by name: the names of
    its class and of the ancestors of its class, and its attributes. *)
Record pyobject : Type := PyObject {
  obj_mro : list string;
  obj_attrs : gmap string value
}.

(** The components [outline_message_list] tells apart with [isinstance] on a
    class it imports, each with the attributes the module reads, and [Other]
    for every other object. The thirteen classes are taken to be bound by the
    import and to be unrelated to one another. [Record_] is the class
    [Record]. A [chain] that is [None] is the empty list: the module only
    tests its truth value. *)
Inductive segment : Type :=
| Plain (text : string)
| Image (file url : option string)
| Face (id : value)
| At (qq : value) (name : option string)
| AtAll
| Record_
| Video
| Share (title : value) (content : option string)
| Contact (id : value)
| Location (title : value) (content : option string)
| Music (title : value) (content : option string)
| File (name : value)
| Reply (chain : list segment) (message_str sender_nickname : option string)
        (sender_id : value)
| Other (o : pyobject).

(** [getattr(obj, name, default)] rendered in an f-string. *)
Definition getattr_str (o : pyobject) (name default : string) : string :=
  match obj_attrs o !! name with
  | Some v => Py.str v
  | None => default
  end.

Definition type_mapping : gmap string string :=
  list_to_map
    [ ("anonymous", "Anonymous"); ("rps", "RPS"); ("dice", "Dice");
      ("shake", "Shake"); ("redbag", "RedBag"); ("poke", "Poke");
      ("forward", "Forward"); ("node", "Node"); ("nodes", "Nodes");
      ("xml", "Xml"); ("json", "Json"); ("cardimage", "CardImage");
      ("tts", "TTS"); ("wechatemoji", "WechatEmoji") ].

(** A chat message: [sender] is [None] when the attribute is missing or
    false, [message] is empty when the attribute is missing or false. *)
Record member : Type := Member {
  nickname : option string;
  user_id : value
}.

Record message : Type := Message {
  sender : option member;
  timestamp : value;
  msg_message : list segment
}.

(** ** The collaborators of the module

    What the module calls and does not define. *)
Class Collaborators : Type := {
  (** Whether the module's namespace, after [from astrbot.api.all import *],
      binds the name to a class. *)
  module_globals : string -> bool;
  (** [os.path.exists]. *)
  path_exists : string -> bool;
  (** [ImageCaptionUtils.generate_image_caption]: the caption it returns, or
      the exception it raises, given the calls made before and the image. *)
  generate_image_caption : trace -> string -> result (option string);
  (** [json.loads]. *)
  json_loads : string -> result json;
  (** [str] of a float, a list or a dictionary built by [json.loads]. *)
  repr_compound : json -> string;
  (** [datetime.fromtimestamp(ts).strftime("%Y-%m-%d %H:%M:%S")] in the local
      time zone; [None] when the conversion raises. *)
  strftime_local : Z -> option string
}.

Section MessageUtils.

Context `{Collaborators}.

(** Lines 9-51. The test on the attribute [type] comes first and can only
    answer [True]; the test on the class of the object follows when the
    module binds the name. An attribute [type] that is not a string has no
    [lower], and the call raises. *)
Definition _safe_isinstance (obj : pyobject) (class_name : string) : result bool :=
  let by_type :=
    match obj_attrs obj !! "type" with
    | Some (VStr ty) =>
        let obj_type := Py.lower ty in
        match type_mapping !! obj_type with
        | Some c => Ok (String.eqb c class_name)
        | None => Ok false
        end
    | Some _ => Raise (AttributeError "lower")
    | None => Ok false
    end in
  match by_type with
  | Ok true => Ok true
  | Ok false =>
      if module_globals class_name
      then Ok (bool_decide (class_name ∈ obj_mro obj))
      else Ok false
  | Raise e => Raise e
  end.

(** [k in d] for a string [k] and a value [d] built by [json.loads]. *)
Definition json_in (k : string) (d : json) : result bool :=
  match d with
  | JObj items => Ok (Py.has_key k items)
  | JArr l => Ok (existsb (Py.is_str k) l)
  | JStr s => Ok (Py.contains k s)
  | _ => Raise TypeError
  end.

(** [d.get(k, default)]. *)
Definition json_get (d : json) (k : string) (default : json) : result json :=
  match d with
  | JObj items =>
      match Py.dict_get k items with
      | Some v => Ok v
      | None => Ok default
      end
  | _ => Raise (AttributeError "get")
  end.

(** What a replacement field renders for a value built by [json.loads]. *)
Definition json_str (v : json) : string :=
  match v with
  | JStr s => s
  | JNull => "None"
  | JBool true => "True"
  | JBool false => "False"
  | JInt z => Py.str (VInt z)
  | _ => repr_compound v
  end.

(** One call to the captioning client, recorded in the trace. *)
Definition call_caption (image : string) : M (option string) :=
  fun t => (generate_image_caption t image, (t ++ [image])%list).

(** Lines 153-157: the caption of [image] as a fragment. *)
Definition caption_fragment (image : string) : M string :=
  caption <- call_caption image ;;
  if Py.truthy_opt caption
  then ret ("[图片: " +:+ Py.str_opt caption +:+ "]")
  else ret "[图片]".

(** Lines 136-162: the [Image] arm. *)
Definition outline_image (file url : option string) : M string :=
  try_except
    (let image := if Py.truthy_opt file then file else url in
     if Py.truthy_opt image then
       let image := Py.str_opt image in
       if String.prefix "file:///" image then
         let image_path := Py.slice_from 8 image in
         if negb (path_exists image_path)
         then ret "[图片: 文件不存在]"
         else caption_fragment image_path
       else caption_fragment image
     else ret "[图片]")
    (fun e => ret "[图片]").

(** Lines 203-217: the [Json] arm. *)
Definition outline_json (i : pyobject) : M string :=
  match obj_attrs i !! "data" with
  | Some (VStr json_data_attr) =>
      try_except
        (json_data <- lift (json_loads json_data_attr) ;;
         has_prompt <- lift (json_in "prompt" json_data) ;;
         if has_prompt then
           prompt <- lift (json_get json_data "prompt" (JStr "")) ;;
           ret ("[JSON卡片:" +:+ json_str prompt +:+ "]")
         else
           has_app <- lift (json_in "app" json_data) ;;
           if has_app then
             app <- lift (json_get json_data "app" (JStr "")) ;;
             ret ("[小程序:" +:+ json_str app +:+ "]")
           else ret "[JSON消息]")
        (fun e => ret "[JSON消息]")
  | _ => ret "[JSON消息]"
  end.

(** [if c: a elif ...: b] where the test itself may raise. *)
Definition elif (c : result bool) (a b : M string) : M string :=
  hit <- lift c ;; if hit then a else b.

(** The arms an object of a class that is not imported by name can reach,
    in the order of the source. *)
Definition outline_other (i : pyobject) : M string :=
  elif (_safe_isinstance i "RPS") (ret "[猜拳]") (
  elif (_safe_isinstance i "Dice") (ret "[骰子]") (
  elif (_safe_isinstance i "Shake") (ret "[抖一抖]") (
  elif (_safe_isinstance i "Anonymous") (ret "[匿名]") (
  elif (_safe_isinstance i "RedBag")
    (ret ("[红包:" +:+ getattr_str i "title" "" +:+ "]")) (
  elif (_safe_isinstance i "Poke")
    (ret ("[戳一戳 对:" +:+ getattr_str i "qq" "" +:+ "]")) (
  elif (_safe_isinstance i "Forward") (ret "[合并转发消息]") (
  elif (_safe_isinstance i "Node") (ret "[合并转发消息]") (
  elif (_safe_isinstance i "Nodes") (ret "[合并转发消息]") (
  elif (_safe_isinstance i "Xml") (ret "[XML消息]") (
  elif (_safe_isinstance i "Json") (outline_json i) (
  elif (_safe_isinstance i "CardImage")
    (ret ("[卡片图片:" +:+ getattr_str i "source" "" +:+ "]")) (
  elif (_safe_isinstance i "TTS")
    (ret ("[TTS:" +:+ getattr_str i "text" "" +:+ "]")) (
  elif (_safe_isinstance i "WechatEmoji") (ret "[微信表情]") (
  match obj_attrs i !! "type" with
  | Some ty => ret ("[" +:+ Py.str ty +:+ "]")
  | None => raise (AttributeError "type")
  end)))))))))))))).

(** Lines 228, 233, 236: the label of the quoted sender. *)
Definition sender_info (sender_nickname : option string) (sender_id : value) : string :=
  if Py.truthy_opt sender_nickname
  then Py.str_opt sender_nickname +:+ "(" +:+ Py.str sender_id +:+ ")"
  else Py.str sender_id.

(** [f'({content})' if content else ''] *)
Definition paren_if (content : option string) : string :=
  if Py.truthy_opt content then "(" +:+ Py.str_opt content +:+ ")" else "".

(** The loop of [outline_message_list] over a body: [outline += ...] for
    each component in turn. *)
Definition outline_loop (body : segment -> M string)
  : list segment -> string -> M string :=
  fix loop (message_list : list segment) (outline : string) : M string :=
    match message_list with
    | [] => ret outline
    | i :: rest => fragment <- body i ;; loop rest (outline +:+ fragment)
    end.

(** The body of the loop of [outline_message_list]: what one component
    adds to the outline. An imported component is not an instance of the
    classes [_safe_isinstance] looks for and its own type tag is not a key
    of [type_mapping], so that it goes to the arm of its class. *)
Fixpoint outline_segment (i : segment) : M string :=
  match i with
  | Plain text => ret text
  | Image file url => outline_image file url
  | Face id => ret ("[表情:" +:+ Py.str id +:+ "]")
  | At qq name => ret ("[At:" +:+ Py.str qq +:+ paren_if name +:+ "]")
  | AtAll => ret "[At:全体成员]"
  | Record_ => ret "[语音]"
  | Video => ret "[视频]"
  | Share title content =>
      ret ("[分享:《" +:+ Py.str title +:+ "》"
           +:+ (if Py.truthy_opt content then Py.str_opt content else "") +:+ "]")
  | Contact id => ret ("[联系人:" +:+ Py.str id +:+ "]")
  | Location title content =>
      ret ("[位置:" +:+ Py.str title +:+ paren_if content +:+ "]")
  | Music title content =>
      ret ("[音乐:" +:+ Py.str title +:+ paren_if content +:+ "]")
  | File name => ret ("[文件:" +:+ Py.str name +:+ "]")
  | Reply chain message_str sender_nickname sender_id =>
      match chain with
      | _ :: _ =>
          reply_content <- outline_loop outline_segment chain "" ;;
          ret ("[回复(" +:+ sender_info sender_nickname sender_id +:+ ": "
               +:+ reply_content +:+ ")]")
      | [] =>
          if Py.truthy_opt message_str then
            ret ("[回复(" +:+ sender_info sender_nickname sender_id +:+ ": "
                 +:+ Py.str_opt message_str +:+ ")]")
          else if Py.truthy_opt sender_nickname || Py.truthy sender_id then
            ret ("[回复(" +:+ sender_info sender_nickname sender_id +:+ ")]")
          else ret "[回复消息]"
      end
  | Other o => outline_other o
  end.

Definition outline_message_list (message_list : list segment) : M string :=
  outline_loop outline_segment message_list "".

(** [l[start:]] *)
Definition list_slice_from {A} (start : Z) (l : list A) : list A :=
  if (start <? 0)%Z
  then drop (Z.to_nat (Z.max 0 (Z.of_nat (length l) + start))) l
  else drop (Z.to_nat start) l.

(** Lines 82-86. *)
Definition sender_name (msg : message) : string :=
  match sender msg with
  | Some s => if Py.truthy_opt (nickname s) then Py.str_opt (nickname s) else "未知用户"
  | None => "未知用户"
  end.

Definition sender_id_of (msg : message) : string :=
  match sender msg with
  | Some s => if Py.truthy (user_id s) then Py.str (user_id s) else "unknown"
  | None => "unknown"
  end.

(** Lines 89-96: a timestamp that is not a number makes
    [datetime.fromtimestamp] raise, which the bare [except] swallows. *)
Definition send_time (msg : message) : string :=
  if Py.truthy (timestamp msg) then
    match timestamp msg with
    | VInt z =>
        match strftime_local z with
        | Some s => s
        | None => "未知时间"
        end
    | _ => "未知时间"
    end
  else "未知时间".

(** Lines 102-104. *)
Definition message_text (msg : message) (message_content : string) : string :=
  "发送者: " +:+ sender_name msg +:+ " (ID: " +:+ sender_id_of msg +:+ ")" +:+ LF
  +:+ "时间: " +:+ send_time msg +:+ LF
  +:+ "内容: " +:+ message_content.

Definition divider : string := LF +:+ "-" +:+ LF.

(** Lines 80-111: the loop over [enumerate(history_messages)], [n] being
    [len(history_messages)]. *)
Fixpoint history_loop (n idx : nat) (msgs : list message)
         (formatted_text : string) : M string :=
  match msgs with
  | [] => ret formatted_text
  | msg :: rest =>
      message_content <-
        (match msg_message msg with
         | _ :: _ => outline_message_list (msg_message msg)
         | [] => ret ""
         end) ;;
      let formatted_text := formatted_text +:+ message_text msg message_content in
      let formatted_text :=
        if (idx <? n - 1)%nat then formatted_text +:+ divider else formatted_text in
      history_loop n (S idx) rest formatted_text
  end.

Definition format_history_for_llm (history_messages : list message)
           (max_messages : Z) : M string :=
  match history_messages with
  | [] => ret ""
  | _ :: _ =>
      let history_messages :=
        if (max_messages <? Z.of_nat (length history_messages))%Z
        then list_slice_from (- max_messages) history_messages
        else history_messages in
      history_loop (length history_messages) 0 history_messages ""
  end.

(** ** Notions the properties are stated with *)

(** The fragments of the components of a list, one for each, in order. *)
Fixpoint fragments (message_list : list segment) : M (list string) :=
  match message_list with
  | [] => ret []
  | i :: rest =>
      fragment <- outline_segment i ;;
      others <- fragments rest ;;
      ret (fragment :: others)
  end.

(** The three-line blocks of the messages of a list, one for each, in
    order. *)
Fixpoint blocks (msgs : list message) : M (list string) :=
  match msgs with
  | [] => ret []
  | msg :: rest =>
      message_content <- outline_message_list (msg_message msg) ;;
      others <- blocks rest ;;
      ret (message_text msg message_content :: others)
  end.

(** Two messages that differ in nothing the loop reads. *)
Definition same_render (m m' : message) : Prop :=
  msg_message m = msg_message m' /\ forall c, message_text m c = message_text m' c.

(** The classes [outline_message_list] looks for with [_safe_isinstance]
    before it looks for [Json]. *)
Definition classes_before_json : list string :=
  [ "RPS"; "Dice"; "Shake"; "Anonymous"; "RedBag"; "Poke"; "Forward"; "Node";
    "Nodes"; "Xml" ].

Definition classes_after_json : list string :=
  [ "CardImage"; "TTS"; "WechatEmoji" ].

Definition is_not (o : pyobject) (class_name : string) : bool :=
  match _safe_isinstance o class_name with
  | Ok false => true
  | _ => false
  end.

(** The object is a JSON payload: the first test it passes is [Json]. *)
Definition json_payload (o : pyobject) : bool :=
  forallb (is_not o) classes_before_json &&
  match _safe_isinstance o "Json" with
  | Ok true => true
  | _ => false
  end.

(** No test of [outline_message_list] recognises the object. *)
Definition unrecognised (o : pyobject) : bool :=
  forallb (is_not o) (classes_before_json ++ "Json" :: classes_after_json).

(** The reference the captioning client is called with, as the
    specification words it: the persisted file reference if there is one,
    else the remote one; a reference of the local-file scheme without its
    prefix, provided that the path exists. *)
Definition resolved_reference (file url : option string) : option string :=
  let reference :=
    match file with
    | Some (String c r) => Some (String c r)
    | _ => url
    end in
  match reference with
  | Some (String c r) =>
      if String.prefix "file:///" (String c r) then
        let path := Py.slice_from 8 (String c r) in
        if path_exists path then Some path else None
      else Some (String c r)
  | _ => None
  end.

(** The placeholder of a JSON payload, as the specification words it. *)
Definition json_placeholder (parsed : result json) : string :=
  match parsed with
  | Ok (JObj items) =>
      match Py.dict_get "prompt" items, Py.dict_get "app" items with
      | Some prompt, _ => "[JSON卡片:" +:+ json_str prompt +:+ "]"
      | None, Some app => "[小程序:" +:+ json_str app +:+ "]"
      | None, None => "[JSON消息]"
      end
  | _ => "[JSON消息]"
  end.

End MessageUtils.

Fixpoint last_is (c : ascii) (s : string) : bool :=
  match s with
  | EmptyString => false
  | String a EmptyString => Ascii.eqb a c
  | String _ r => last_is c r
  end.

(** A placeholder in brackets: it starts with [[] and ends with []]. *)
Definition bracketed (fragment : string) : bool :=
  String.prefix "[" fragment && last_is "]" fragment.

(** Fragments put one after the other, nothing in between. *)
Definition concat_fragments (frs : list string) : string :=
  fold_right String.append "" frs.

Definition is_plain (i : segment) : bool :=
  match i with
  | Plain _ => true
  | _ => false
  end.

(** The object has a type tag, a string. *)
Definition has_type_tag (o : pyobject) : bool :=
  match obj_attrs o !! "type" with
  | Some (VStr _) => true
  | _ => false
  end.

(** Every object of a class that is not imported by name, at any depth of
    the quoted chains, has a type tag. *)
Fixpoint tagged (i : segment) : bool :=
  match i with
  | Reply chain _ _ _ => forallb tagged chain
  | Other o => has_type_tag o
  | _ => true
  end.

Definition children (i : segment) : list segment :=
  match i with
  | Reply chain _ _ _ => chain
  | _ => []
  end.

(** ** Collaborators to run the module on *)

Definition DQ : string := String "034" EmptyString.

Definition prompt_payload : string :=
  "{" +:+ DQ +:+ "prompt" +:+ DQ +:+ ":" +:+ DQ +:+ "draw a cat" +:+ DQ +:+ "}".

Definition app_payload : string :=
  "{" +:+ DQ +:+ "app" +:+ DQ +:+ ":" +:+ DQ +:+ "mini" +:+ DQ +:+ "}".

(** A filesystem with one file, a captioning client that knows the file,
    faults on ["boom"] and has no caption otherwise, a parser that knows the
    two payloads above and a clock that rejects negative timestamps. *)
Definition demo : Collaborators := {|
  module_globals := fun class_name => false;
  path_exists := fun p => String.eqb p "cat.png";
  generate_image_caption := fun t image =>
    if String.eqb image "cat.png" then Ok (Some "一只猫")
    else if String.eqb image "boom" then Raise (Fault "timeout")
    else Ok None;
  json_loads := fun raw =>
    if String.eqb raw prompt_payload then Ok (JObj [("prompt", JStr "draw a cat")])
    else if String.eqb raw app_payload then Ok (JObj [("app", JStr "mini")])
    else Raise (Fault "JSONDecodeError");
  repr_compound := fun v => "...";
  strftime_local := fun z =>
    if (z <? 0)%Z then None else Some "1970-01-01 00:00:00"
|}.

Definition json_object (raw : string) : pyobject :=
  PyObject ["Json"] (<["type" := VStr "Json"]> (<["data" := VStr raw]> ∅)).

Definition widget : pyobject :=
  PyObject ["Widget"] (<["type" := VStr "widget"]> ∅).

(** An object with no attribute at all. *)
Definition bare : pyobject := PyObject ["Gadget"] ∅.

Definition alice : message :=
  Message (Some (Member (Some "alice") (VInt 7))) VNone [Plain "hi"].

Definition bob : message :=
  Message (Some (Member None (VStr "b0b"))) VNone [Plain "yo"; Face (VInt 5)].

Definition carol : message :=
  Message None (VInt 0) [].

(** ** Notions for the properties of the calls and of the dispatch *)

Section Calls.

Context `{Collaborators}.

(** The references the captioning client is to be called with for one
    component: the resolved reference of an image, and those of the
    components of a quoted chain, in order. *)
Fixpoint segment_calls (i : segment) : list string :=
  match i with
  | Image file url =>
      match resolved_reference file url with
      | Some ref => [ref]
      | None => []
      end
  | Reply chain _ _ _ => flat_map segment_calls chain
  | _ => []
  end.

Definition caption_calls (message_list : list segment) : list string :=
  flat_map segment_calls message_list.

Definition history_calls (msgs : list message) : list string :=
  flat_map (fun msg => caption_calls (msg_message msg)) msgs.

(** The classes [outline_message_list] looks for with [_safe_isinstance],
    in the order of the source. *)
Definition tested_classes : list string :=
  classes_before_json ++ "Json" :: classes_after_json.

(** The test on the class of the object: the module binds the name and the
    object is an instance of the class. *)
Definition class_test (o : pyobject) (class_name : string) : bool :=
  module_globals class_name && bool_decide (class_name ∈ obj_mro o).

End Calls.

(** What a run has added to the trace is what the component calls for when
    the run returns, and the first part of it when the run raises. *)
Definition calls_as_expected {A} (run : result A * trace) (t : trace)
           (expected : list string) : Prop :=
  exists made,
    snd run = (t ++ made)%list
    /\ match fst run with
       | Ok _ => made = expected
       | Raise _ => made `prefix_of` expected
       end.

(** The collaborators above in a module that binds the class [RPS], and an
    instance of that class without an attribute [type]. *)
Definition demo_rps : Collaborators := {|
  module_globals := fun class_name => String.eqb class_name "RPS";
  path_exists := @path_exists demo;
  generate_image_caption := @generate_image_caption demo;
  json_loads := @json_loads demo;
  repr_compound := @repr_compound demo;
  strftime_local := @strftime_local demo
|}.

Definition rps_instance : pyobject := PyObject ["RPS"; "BaseMessageComponent"] ∅.

(** A message with a captioned image and a quoted image whose client
    faults, and a message that cannot be outlined. *)
Definition photos : message :=
  Message None VNone
    [ Image (Some "file:///cat.png") None; Plain " and ";
      Reply [Image None (Some "boom")] None (Some "bob") (VInt 42) ].

Definition broken : message :=
  Message None VNone [Plain "lost"; Other bare].

(** * Properties *)

Section Properties.

Context `{Collaborators}.

(** ** Strings *)

Lemma append_cons (x : ascii) (a b : string) : String x a +:+ b = String x (a +:+ b).
Proof. reflexivity. Qed.

Lemma append_empty_l (b : string) : "" +:+ b = b.
Proof. reflexivity. Qed.

Lemma append_assoc (a b c : string) : (a +:+ b) +:+ c = a +:+ (b +:+ c).
Proof.
  induction a as [|x a IH]; [reflexivity|].
  rewrite !append_cons. now rewrite IH.
Qed.

Lemma append_empty_r (a : string) : a +:+ "" = a.
Proof.
  induction a as [|x a IH]; [reflexivity|].
  rewrite append_cons. now rewrite IH.
Qed.

Lemma append_not_empty (a : string) (x : ascii) (b : string) :
  a +:+ String x b <> "".
Proof. destruct a; [rewrite append_empty_l | rewrite append_cons]; discriminate. Qed.

Lemma last_is_append (c : ascii) (s : string) : last_is c (s +:+ String c "") = true.
Proof.
  induction s as [|x s IH].
  - rewrite append_empty_l. simpl. apply Ascii.eqb_refl.
  - rewrite append_cons. simpl.
    destruct (s +:+ String c "") eqn:E; [|exact IH].
    now apply append_not_empty in E.
Qed.

Lemma bracketed_intro (s : string) : bracketed ("[" +:+ s +:+ "]") = true.
Proof.
  unfold bracketed. rewrite append_cons, append_empty_l.
  apply andb_true_intro. split.
  - simpl. destruct (s +:+ "]"); reflexivity.
  - simpl. destruct (s +:+ "]") eqn:E; [now apply append_not_empty in E|].
    rewrite <- E. apply last_is_append.
Qed.

(** ** The loop of [outline_message_list] *)

Lemma outline_loop_fragments (l : list segment) (acc : string) (t : trace) :
  outline_loop outline_segment l acc t
  = (frs <- fragments l ;; ret (acc +:+ concat_fragments frs)) t.
Proof.
  revert acc t. induction l as [|i l IH]; intros acc t; simpl.
  - unfold bind, ret. simpl. now rewrite append_empty_r.
  - unfold bind at 1 2 3. destruct (outline_segment i t) as [[f|e] t1]; [|reflexivity].
    rewrite IH. unfold bind, ret.
    destruct (fragments l t1) as [[frs|e] t2]; [|reflexivity].
    simpl. now rewrite append_assoc.
Qed.

Lemma fragments_length (l : list segment) (t : trace) :
  match fragments l t with
  | (Ok frs, _) => length frs = length l
  | (Raise _, _) => True
  end.
Proof.
  revert t. induction l as [|i l IH]; intros t; simpl; [reflexivity|].
  unfold bind, ret. destruct (outline_segment i t) as [[f|e] t1]; [|exact I].
  specialize (IH t1). destruct (fragments l t1) as [[frs|e] t2]; [|exact I].
  simpl. now rewrite IH.
Qed.

Lemma outline_message_list_single (i : segment) (t : trace) :
  outline_message_list [i] t = outline_segment i t.
Proof.
  unfold outline_message_list. rewrite outline_loop_fragments.
  cbn [fragments]. unfold bind, ret.
  destruct (outline_segment i t) as [[f|e] t']; [|reflexivity].
  unfold concat_fragments. cbn [fold_right].
  now rewrite append_empty_l, append_empty_r.
Qed.

(** C7. [outline_message_list] makes one fragment for each component and
    puts the fragments one after the other, in the order of the components
    and with nothing between them: the texts "a", "b", "c" give "abc", and
    the empty list gives the empty string. *)
Theorem outline_message_list_concatenates (message_list : list segment) (t : trace) :
  outline_message_list message_list t
  = (frs <- fragments message_list ;; ret (concat_fragments frs)) t
  /\ match fragments message_list t with
     | (Ok frs, _) => length frs = length message_list
     | (Raise _, _) => True
     end
  /\ outline_message_list [Plain "a"; Plain "b"; Plain "c"] t = (Ok "abc", t)
  /\ outline_message_list [] t = (Ok "", t).
Proof.
  split; [|split; [apply fragments_length | split; reflexivity]].
  unfold outline_message_list. now rewrite outline_loop_fragments.
Qed.

(** ** Images *)

Ltac expose_append := repeat (rewrite append_cons || rewrite append_empty_l).

Lemma prefix_empty (s : string) : String.prefix "" s = true.
Proof. destruct s; reflexivity. Qed.

Lemma truthy_opt_cons (c : ascii) (r : string) : Py.truthy_opt (Some (String c r)) = true.
Proof. reflexivity. Qed.

Lemma caption_fragment_run (image : string) (t : trace) :
  caption_fragment image t
  = match generate_image_caption t image with
    | Ok (Some (String c r)) => (Ok ("[图片: " +:+ String c r +:+ "]"), (t ++ [image])%list)
    | Ok _ => (Ok "[图片]", (t ++ [image])%list)
    | Raise e => (Raise e, (t ++ [image])%list)
    end.
Proof.
  unfold caption_fragment, bind, call_caption, ret.
  destruct (generate_image_caption t image) as [[[|c r]|]|e]; reflexivity.
Qed.

(** C2. An image whose persisted reference is of the local-file scheme and
    whose path, the reference without the prefix, does not exist gives
    exactly the file-missing placeholder, and the captioning client is not
    called: no call is added to the trace. *)
Theorem image_missing_file_not_captioned (p : string) (url : option string) (t : trace)
  (Hmissing : path_exists p = false) :
  outline_segment (Image (Some ("file:///" +:+ p)) url) t = (Ok "[图片: 文件不存在]", t)
  /\ outline_message_list [Image (Some ("file:///" +:+ p)) url] t
     = (Ok "[图片: 文件不存在]", t).
Proof.
  assert (E : outline_segment (Image (Some ("file:///" +:+ p)) url) t
              = (Ok "[图片: 文件不存在]", t)).
  { expose_append. simpl. unfold outline_image, try_except.
    rewrite truthy_opt_cons. simpl. now rewrite prefix_empty, Hmissing. }
  split; [exact E|].
  now rewrite outline_message_list_single.
Qed.

Lemma outline_image_resolved (file url : option string) (ref : string) (t : trace) :
  resolved_reference file url = Some ref ->
  outline_image file url t
  = try_except (caption_fragment ref) (fun e => ret "[图片]") t.
Proof.
  unfold resolved_reference, outline_image. intros Href.
  assert (Hgen : forall c r,
    match
      (if String.prefix "file:///" (String c r)
       then (if path_exists (Py.slice_from 8 (String c r))
             then Some (Py.slice_from 8 (String c r)) else None)
       else Some (String c r))
    with Some x => x = ref | None => False end ->
    try_except
      (if String.prefix "file:///" (Py.str_opt (Some (String c r)))
       then
         if negb (path_exists (Py.slice_from 8 (Py.str_opt (Some (String c r)))))
         then ret "[图片: 文件不存在]"
         else caption_fragment (Py.slice_from 8 (Py.str_opt (Some (String c r))))
       else caption_fragment (Py.str_opt (Some (String c r))))
      (fun _ => ret "[图片]") t
    = try_except (caption_fragment ref) (fun _ => ret "[图片]") t).
  { intros c r. unfold Py.str_opt.
    destruct (String.prefix "file:///" (String c r)).
    - destruct (path_exists (Py.slice_from 8 (String c r))); [|contradiction].
      now intros ->.
    - now intros ->. }
  destruct file as [[|c r]|].
  - change (Py.truthy_opt (Some "")) with false. cbv iota.
    destruct url as [[|c r]|]; try discriminate.
    rewrite truthy_opt_cons. apply Hgen. now rewrite Href.
  - rewrite truthy_opt_cons. cbv iota. rewrite truthy_opt_cons.
    apply Hgen. now rewrite Href.
  - change (Py.truthy_opt None) with false. cbv iota.
    destruct url as [[|c r]|]; try discriminate.
    rewrite truthy_opt_cons. apply Hgen. now rewrite Href.
Qed.

(** C3. An image with a resolvable reference: the captioning client is
    called once, with that reference; a caption that is not empty gives the
    placeholder with the caption, an empty caption or none gives the bare
    placeholder, and so does a fault of the client, which is not raised
    further. *)
Theorem image_caption_fragment (file url : option string) (ref : string) (t : trace)
  (Href : resolved_reference file url = Some ref) :
  outline_segment (Image file url) t
  = (Ok match generate_image_caption t ref with
        | Ok (Some (String c r)) => "[图片: " +:+ String c r +:+ "]"
        | Ok (Some EmptyString) => "[图片]"
        | Ok None => "[图片]"
        | Raise fault => "[图片]"
        end,
     (t ++ [ref])%list).
Proof.
  simpl. rewrite (outline_image_resolved _ _ _ _ Href).
  unfold try_except. rewrite caption_fragment_run.
  destruct (generate_image_caption t ref) as [[[|c r]|]|e]; reflexivity.
Qed.

(** ** Cards with a title *)

(** C4, as the code has it. A location and a music card give the kind, the
    title and, when there is a content that is not empty, the content in
    parentheses; a share gives its title in title marks and the content, if
    any, right after them, without parentheses. *)
Theorem titled_card_fragments (title : value) (content : option string) (t : trace) :
  outline_segment (Location title content) t
  = (Ok match content with
        | Some (String c r) => "[位置:" +:+ Py.str title +:+ "(" +:+ String c r +:+ ")]"
        | _ => "[位置:" +:+ Py.str title +:+ "]"
        end, t)
  /\ outline_segment (Music title content) t
  = (Ok match content with
        | Some (String c r) => "[音乐:" +:+ Py.str title +:+ "(" +:+ String c r +:+ ")]"
        | _ => "[音乐:" +:+ Py.str title +:+ "]"
        end, t)
  /\ outline_segment (Share title content) t
  = (Ok match content with
        | Some (String c r) => "[分享:《" +:+ Py.str title +:+ "》" +:+ String c r +:+ "]"
        | _ => "[分享:《" +:+ Py.str title +:+ "》]"
        end, t).
Proof.
  repeat split; destruct content as [[|c r]|];
    cbn [outline_segment]; unfold ret, paren_if;
    cbn [Py.truthy_opt Py.str_opt String.eqb negb];
    rewrite ?append_assoc; reflexivity.
Qed.

(** ** Quoted replies *)

(** C8. A reply with a quoted chain gives the outline of the chain, made by
    the same function, after the label of the sender; else a reply with a
    quoted text gives the text after the label; else a reply with a sender
    gives the label alone; else the reply gives the generic placeholder. The
    label is the nickname followed by the id in parentheses when there is a
    nickname, and the id alone when there is none. *)
Theorem reply_precedence (chain : list segment) (message_str sender_nickname : option string)
        (sender_id : value) (t : trace) :
  let label :=
    match sender_nickname with
    | Some (String c r) => String c r +:+ "(" +:+ Py.str sender_id +:+ ")"
    | _ => Py.str sender_id
    end in
  outline_segment (Reply chain message_str sender_nickname sender_id) t
  = match chain, message_str with
    | _ :: _, _ =>
        (quoted <- outline_message_list chain ;;
         ret ("[回复(" +:+ label +:+ ": " +:+ quoted +:+ ")]")) t
    | [], Some (String c r) =>
        (Ok ("[回复(" +:+ label +:+ ": " +:+ String c r +:+ ")]"), t)
    | [], _ =>
        match sender_nickname, sender_id with
        | Some (String _ _), _ => (Ok ("[回复(" +:+ label +:+ ")]"), t)
        | _, VStr (String _ _) => (Ok ("[回复(" +:+ label +:+ ")]"), t)
        | _, VInt (Zpos _) => (Ok ("[回复(" +:+ label +:+ ")]"), t)
        | _, VInt (Zneg _) => (Ok ("[回复(" +:+ label +:+ ")]"), t)
        | _, _ => (Ok "[回复消息]", t)
        end
    end.
Proof.
  intros label.
  assert (El : sender_info sender_nickname sender_id = label).
  { subst label. unfold sender_info. destruct sender_nickname as [[|c r]|]; reflexivity. }
  destruct chain as [|i chain].
  - cbn [outline_segment]. rewrite El.
    destruct message_str as [[|c r]|];
      destruct sender_nickname as [[|c' r']|];
      destruct sender_id as [|[|c'' r'']|[|z|z]]; reflexivity.
  - cbn [outline_segment]. rewrite El. reflexivity.
Qed.

(** ** JSON payloads *)

Lemma is_not_true (o : pyobject) (c : string) :
  is_not o c = true -> _safe_isinstance o c = Ok false.
Proof.
  unfold is_not. destruct (_safe_isinstance o c) as [[|]|e]; now try discriminate.
Qed.

Lemma elif_false (a b : M string) : elif (Ok false) a b = b.
Proof. reflexivity. Qed.

Lemma elif_true (a b : M string) : elif (Ok true) a b = a.
Proof. reflexivity. Qed.

Lemma outline_other_json (o : pyobject) :
  json_payload o = true -> outline_other o = outline_json o.
Proof.
  unfold json_payload, classes_before_json. cbn [forallb]. intros Hj.
  apply andb_prop in Hj. destruct Hj as [Hb Hj].
  destruct (_safe_isinstance o "Json") as [[|]|e] eqn:Ej; try discriminate.
  repeat (apply andb_prop in Hb; destruct Hb as [?%is_not_true Hb]).
  unfold outline_other.
  repeat match goal with
         | E : _safe_isinstance o ?c = Ok false |- _ =>
             rewrite E, elif_false; clear E
         end.
  now rewrite Ej, elif_true.
Qed.

Lemma outline_json_placeholder (o : pyobject) (raw : string) (t : trace) :
  obj_attrs o !! "data" = Some (VStr raw) ->
  outline_json o t = (Ok (json_placeholder (json_loads raw)), t).
Proof.
  intros Hdata. unfold outline_json. rewrite Hdata.
  unfold try_except, bind, lift, ret, json_placeholder.
  destruct (json_loads raw) as [d|e]; [|reflexivity].
  destruct d as [| b | z | f | s | l | items]; try reflexivity.
  - cbn [json_in json_get].
    destruct (Py.contains "prompt" s); [reflexivity|].
    destruct (Py.contains "app" s); reflexivity.
  - cbn [json_in json_get].
    destruct (existsb (Py.is_str "prompt") l); [reflexivity|].
    destruct (existsb (Py.is_str "app") l); reflexivity.
  - cbn [json_in json_get]. unfold Py.has_key.
    destruct (Py.dict_get "prompt" items) as [v|]; [reflexivity|].
    destruct (Py.dict_get "app" items) as [v|]; reflexivity.
Qed.

(** C5. The raw string of a JSON payload is parsed. When the parser raises,
    or what it builds is not a dictionary, the fragment is the generic
    placeholder and nothing is raised; a dictionary with the key "prompt"
    gives the card placeholder with its value, else a dictionary with the
    key "app" gives the applet placeholder with its value, else the generic
    placeholder. *)
Theorem json_payload_outline (o : pyobject) (raw : string) (t : trace)
  (Hjson : json_payload o = true)
  (Hdata : obj_attrs o !! "data" = Some (VStr raw)) :
  outline_segment (Other o) t = (Ok (json_placeholder (json_loads raw)), t).
Proof.
  cbn [outline_segment]. rewrite (outline_other_json o Hjson).
  now apply outline_json_placeholder.
Qed.

(** ** The history *)

Lemma message_content_run (msg : message) :
  match msg_message msg with
  | _ :: _ => outline_message_list (msg_message msg)
  | [] => ret ""
  end = outline_message_list (msg_message msg).
Proof. destruct (msg_message msg); reflexivity. Qed.

Lemma blocks_length (msgs : list message) (t : trace) :
  match blocks msgs t with
  | (Ok bs, _) => length bs = length msgs
  | (Raise _, _) => True
  end.
Proof.
  revert t. induction msgs as [|msg msgs IH]; intros t; [reflexivity|].
  cbn [blocks]. unfold bind, ret.
  destruct (outline_message_list (msg_message msg) t) as [[c|e] t1]; [|exact I].
  specialize (IH t1). destruct (blocks msgs t1) as [[bs|e] t2]; [|exact I].
  simpl. now rewrite IH.
Qed.

(** The loop writes the blocks with one divider between two of them. *)
Lemma history_loop_blocks (msgs : list message) (idx : nat) (acc : string) (t : trace) :
  history_loop (idx + length msgs) idx msgs acc t
  = (bs <- blocks msgs ;; ret (acc +:+ String.concat divider bs)) t.
Proof.
  revert idx acc t. induction msgs as [|msg rest IH]; intros idx acc t.
  - cbn. unfold bind, ret. now rewrite append_empty_r.
  - cbn [history_loop blocks]. rewrite message_content_run.
    unfold bind at 1 2 3.
    destruct (outline_message_list (msg_message msg) t) as [[c|e] t1]; [|reflexivity].
    destruct rest as [|msg' rest'].
    + cbn [length]. replace (idx <? idx + 1 - 1)%nat with false
        by (symmetry; apply Nat.ltb_ge; lia).
      cbn. unfold bind, ret. reflexivity.
    + replace (idx <? idx + length (msg :: msg' :: rest') - 1)%nat with true
        by (symmetry; apply Nat.ltb_lt; cbn [length]; lia).
      replace (idx + length (msg :: msg' :: rest'))%nat
        with (S idx + length (msg' :: rest'))%nat by (cbn [length]; lia).
      rewrite IH. unfold bind, ret.
      pose proof (blocks_length (msg' :: rest') t1) as Hlen.
      destruct (blocks (msg' :: rest') t1) as [[bs|e] t2]; [|reflexivity].
      destruct bs as [|b bs]; [discriminate|].
      f_equal. f_equal. cbn [String.concat]. now rewrite !append_assoc.
Qed.

(** With a positive maximum the history is cut to its last [max_messages]
    messages and the blocks of those are joined by the divider. *)
Lemma format_history_keeps_last (history_messages : list message) (max_messages : Z)
      (t : trace) :
  (0 < max_messages)%Z ->
  format_history_for_llm history_messages max_messages t
  = (bs <- blocks (drop (length history_messages - Z.to_nat max_messages) history_messages) ;;
     ret (String.concat divider bs)) t.
Proof.
  intros Hpos. destruct history_messages as [|msg rest]; [reflexivity|].
  unfold format_history_for_llm. set (h := msg :: rest).
  assert (Ecut :
    (if (max_messages <? Z.of_nat (length h))%Z
     then list_slice_from (- max_messages) h else h)
    = drop (length h - Z.to_nat max_messages) h).
  { destruct (max_messages <? Z.of_nat (length h))%Z eqn:E.
    - apply Z.ltb_lt in E. unfold list_slice_from.
      replace (- max_messages <? 0)%Z with true by (symmetry; apply Z.ltb_lt; lia).
      f_equal. lia.
    - apply Z.ltb_ge in E.
      replace (length h - Z.to_nat max_messages)%nat with O by lia. reflexivity. }
  rewrite Ecut.
  pose proof (history_loop_blocks
                (drop (length h - Z.to_nat max_messages) h) 0 "" t) as E.
  cbn [Nat.add] in E. rewrite E. unfold bind, ret.
  destruct (blocks _ t) as [[bs|e] t1]; reflexivity.
Qed.

(** C6, at a maximum of zero: the slice [history_messages[-0:]] is the whole
    list, so that both messages are kept, where the last zero messages would
    give the empty string. *)
Theorem format_history_zero_max_keeps_all (t : trace) :
  format_history_for_llm [alice; bob] 0 t
  = (Ok ("发送者: alice (ID: 7)" +:+ LF +:+ "时间: 未知时间" +:+ LF +:+ "内容: hi"
         +:+ LF +:+ "-" +:+ LF +:+
         "发送者: 未知用户 (ID: b0b)" +:+ LF +:+ "时间: 未知时间" +:+ LF
         +:+ "内容: yo[表情:5]"), t)
  /\ fst (format_history_for_llm [alice; bob] 0 t) <> Ok "".
Proof. split; [reflexivity | discriminate]. Qed.

Lemma history_loop_ext (l l' : list message) :
  Forall2 same_render l l' ->
  forall n idx acc t, history_loop n idx l acc t = history_loop n idx l' acc t.
Proof.
  induction 1 as [|m m' l l' [Em Et] _ IH]; intros n idx acc t; [reflexivity|].
  cbn [history_loop]. rewrite <- Em. unfold bind.
  destruct (match msg_message m with
            | [] => ret ""
            | _ :: _ => outline_message_list (msg_message m)
            end t) as [[c|e] t1]; [|reflexivity].
  rewrite <- Et. apply IH.
Qed.

Lemma same_render_refl (m : message) : same_render m m.
Proof. now split. Qed.

Lemma format_history_ext (h h' : list message) (max_messages : Z) (t : trace) :
  Forall2 same_render h h' ->
  format_history_for_llm h max_messages t = format_history_for_llm h' max_messages t.
Proof.
  intros Hs. assert (Hlen := Forall2_length _ _ _ Hs).
  inversion Hs as [|m m' l l' Hm Hl]; subst; [reflexivity|].
  unfold format_history_for_llm. rewrite <- Hlen.
  destruct (max_messages <? Z.of_nat (length (m :: l)))%Z.
  - unfold list_slice_from.
    destruct (- max_messages <? 0)%Z; rewrite !length_drop, <- ?Hlen;
      apply history_loop_ext, Forall2_drop; assumption.
  - rewrite <- Hlen. apply history_loop_ext; assumption.
Qed.

Lemma blocks_app (l1 l2 : list message) (t : trace) :
  blocks (l1 ++ l2)%list t
  = (b1 <- blocks l1 ;; b2 <- blocks l2 ;; ret (b1 ++ b2)%list) t.
Proof.
  revert t. induction l1 as [|m l1 IH]; intros t.
  - cbn [blocks app]. unfold bind, ret.
    destruct (blocks l2 t) as [[b2|e] t2]; reflexivity.
  - cbn [blocks app]. unfold bind at 1 2 3 4.
    destruct (outline_message_list (msg_message m) t) as [[c|e] t1]; [|reflexivity].
    rewrite IH. unfold bind, ret.
    destruct (blocks l1 t1) as [[b1|e] t2]; [|reflexivity].
    destruct (blocks l2 t2) as [[b2|e] t3]; reflexivity.
Qed.

(** The text of a history around one of its retained messages: the blocks
    of the retained older messages, the block of the message, the blocks of
    the later messages, joined by the divider. *)
Lemma format_history_block_at (before after : list message) (m : message)
      (max_messages : Z) (t : trace) :
  (0 < max_messages)%Z ->
  (Z.of_nat (length after) < max_messages)%Z ->
  format_history_for_llm (before ++ m :: after)%list max_messages t
  = (b1 <- blocks (drop (length before + S (length after) - Z.to_nat max_messages)
                        before) ;;
     c <- outline_message_list (msg_message m) ;;
     b2 <- blocks after ;;
     ret (String.concat divider (b1 ++ message_text m c :: b2)%list)) t.
Proof.
  intros Hpos Hin. rewrite format_history_keeps_last by exact Hpos.
  replace (length (before ++ m :: after)%list - Z.to_nat max_messages)%nat
    with (length before + S (length after) - Z.to_nat max_messages)%nat
    by (rewrite length_app; reflexivity).
  rewrite drop_app_le by lia.
  unfold bind at 1. rewrite blocks_app. unfold bind.
  destruct (blocks (drop _ before) t) as [[b1|e] t1]; [|reflexivity].
  cbn [blocks]. unfold bind.
  destruct (outline_message_list (msg_message m) t1) as [[c|e] t2]; [|reflexivity].
  destruct (blocks after t2) as [[b2|e] t3]; reflexivity.
Qed.

(** C10. A message whose timestamp is 0 has the unknown-time placeholder on
    its time line: when the message is retained, its block in the text that
    is returned reads so, and the history is formatted exactly as with the
    timestamp absent. A timestamp that is false in a condition is taken to
    be missing, whatever the clock makes of second 0. *)
Theorem zero_timestamp_is_unknown_time (who : option member) (content : list segment)
        (before after : list message) (max_messages : Z) (t : trace) :
  let msg := Message who (VInt 0) content in
  send_time msg = "未知时间"
  /\ format_history_for_llm (before ++ msg :: after)%list max_messages t
     = format_history_for_llm (before ++ Message who VNone content :: after)%list
         max_messages t
  /\ ((0 < max_messages)%Z ->
      (Z.of_nat (length after) < max_messages)%Z ->
      format_history_for_llm (before ++ msg :: after)%list max_messages t
      = (b1 <- blocks (drop (length before + S (length after) - Z.to_nat max_messages)
                            before) ;;
         c <- outline_message_list content ;;
         b2 <- blocks after ;;
         ret (String.concat divider
                (b1 ++ ("发送者: " +:+ sender_name msg +:+ " (ID: " +:+ sender_id_of msg
                        +:+ ")" +:+ LF +:+ "时间: 未知时间" +:+ LF +:+ "内容: " +:+ c)
                    :: b2)%list)) t).
Proof.
  intros msg. split; [reflexivity|]. split.
  - set (h := (before ++ msg :: after)%list).
    set (h' := (before ++ Message who VNone content :: after)%list).
    assert (Hsame : Forall2 same_render h h').
    { subst h h'. apply Forall2_app.
      - induction before; constructor; auto using same_render_refl.
      - constructor; [now split|].
        induction after; constructor; auto using same_render_refl. }
    now apply format_history_ext.
  - intros Hpos Hin. now rewrite format_history_block_at.
Qed.

(** ** Placeholders are in brackets *)

Lemma last_is_app_r (c : ascii) (x y : string) :
  last_is c y = true -> last_is c (x +:+ y) = true.
Proof.
  intros Hy. induction x as [|a x IH]; [exact Hy|].
  rewrite append_cons. cbn [last_is].
  destruct (x +:+ y) eqn:E; [|exact IH].
  destruct x; [|discriminate]. rewrite append_empty_l in E. subst y. discriminate.
Qed.

Lemma prefix_bracket_app (p x : string) :
  String.prefix "[" p = true -> String.prefix "[" (p +:+ x) = true.
Proof.
  destruct p as [|a p]; [discriminate|]. rewrite append_cons.
  cbn [String.prefix]. destruct (ascii_dec "[" a); [|discriminate].
  intros _. apply prefix_empty.
Qed.

Ltac solve_bracketed :=
  first
    [ reflexivity
    | unfold bracketed; apply andb_true_intro; split;
      [ apply prefix_bracket_app; reflexivity
      | repeat (first [ reflexivity | apply last_is_app_r ]) ] ].

Ltac returns_bracketed :=
  eexists; split; [ reflexivity | solve_bracketed ].

Lemma segment_children_ind (P : segment -> Prop) :
  (forall i, Forall P (children i) -> P i) -> forall i, P i.
Proof.
  intros step. fix IH 1. intros i. apply step.
  destruct i; cbn [children]; try constructor.
  induction chain as [|j chain IHc]; constructor; [apply IH | exact IHc].
Qed.

Lemma safe_isinstance_tagged (o : pyobject) (c : string) :
  has_type_tag o = true -> exists b, _safe_isinstance o c = Ok b.
Proof.
  unfold has_type_tag, _safe_isinstance.
  destruct (obj_attrs o !! "type") as [[|ty|]|]; try discriminate. intros _.
  destruct (type_mapping !! Py.lower ty) as [c'|].
  - destruct (String.eqb c' c); [eauto|]. destruct (module_globals c); eauto.
  - destruct (module_globals c); eauto.
Qed.

Lemma outline_image_bracketed (file url : option string) (t : trace) :
  exists f t', outline_image file url t = (Ok f, t') /\ bracketed f = true.
Proof.
  unfold outline_image, try_except.
  destruct (Py.truthy_opt (if Py.truthy_opt file then file else url));
    [|eexists; eexists; split; [reflexivity | reflexivity]].
  set (image := Py.str_opt (if Py.truthy_opt file then file else url)).
  assert (Hcap : forall image, exists f t',
    (let (r, t') := caption_fragment image t in
     match r with Ok a => (Ok a, t') | Raise _ => ret "[图片]" t' end) = (Ok f, t')
    /\ bracketed f = true).
  { intros im. rewrite caption_fragment_run.
    destruct (generate_image_caption t im) as [[[|c r]|]|e];
      eexists; eexists; (split; [reflexivity | solve_bracketed]). }
  destruct (String.prefix "file:///" image); [|apply Hcap].
  destruct (negb (path_exists (Py.slice_from 8 image))); [|apply Hcap].
  eexists; eexists; split; reflexivity.
Qed.

Lemma json_placeholder_bracketed (parsed : result json) :
  bracketed (json_placeholder parsed) = true.
Proof.
  unfold json_placeholder. destruct parsed as [[| | | | | |items]|e]; try reflexivity.
  destruct (Py.dict_get "prompt" items); [solve_bracketed|].
  destruct (Py.dict_get "app" items); solve_bracketed.
Qed.

Lemma outline_json_bracketed (o : pyobject) (t : trace) :
  exists f, outline_json o t = (Ok f, t) /\ bracketed f = true.
Proof.
  destruct (obj_attrs o !! "data") as [[|raw|]|] eqn:Ed.
  2: { eexists; split; [exact (outline_json_placeholder o raw t Ed)|].
       apply json_placeholder_bracketed. }
  all: unfold outline_json; rewrite Ed; returns_bracketed.
Qed.

Lemma outline_other_bracketed (o : pyobject) (t : trace) :
  has_type_tag o = true ->
  exists f, outline_other o t = (Ok f, t) /\ bracketed f = true.
Proof.
  intros Htag. unfold outline_other.
  repeat match goal with
         | |- context [elif (_safe_isinstance o ?c) _ _] =>
             let b := fresh "b" in
             let E := fresh "E" in
             destruct (safe_isinstance_tagged o c Htag) as [b E];
             rewrite E; clear E; destruct b;
             [ rewrite elif_true;
               first [ apply outline_json_bracketed | returns_bracketed ]
             | rewrite elif_false ]
         end.
  unfold has_type_tag in Htag.
  destruct (obj_attrs o !! "type") as [[|ty|]|]; try discriminate.
  returns_bracketed.
Qed.

(** An object that no test recognises gives its type tag in brackets. *)
Lemma outline_other_unrecognised (o : pyobject) (t : trace) :
  unrecognised o = true ->
  outline_other o t
  = match obj_attrs o !! "type" with
    | Some ty => (Ok ("[" +:+ Py.str ty +:+ "]"), t)
    | None => (Raise (AttributeError "type"), t)
    end.
Proof.
  unfold unrecognised, classes_before_json, classes_after_json.
  cbn [forallb app]. intros Hb.
  repeat (apply andb_prop in Hb; destruct Hb as [?%is_not_true Hb]).
  unfold outline_other.
  repeat match goal with
         | E : _safe_isinstance o ?c = Ok false |- _ =>
             rewrite E, elif_false; clear E
         end.
  destruct (obj_attrs o !! "type"); reflexivity.
Qed.

Lemma fragments_total (l : list segment) :
  Forall (fun i => forall t, exists f t', outline_segment i t = (Ok f, t')) l ->
  forall t, exists frs t', fragments l t = (Ok frs, t').
Proof.
  induction 1 as [|i l Hi _ IH]; intros t; [now eexists; eexists|].
  cbn [fragments]. unfold bind, ret.
  destruct (Hi t) as (f & t1 & ->). destruct (IH t1) as (frs & t2 & ->).
  now eexists; eexists.
Qed.

Lemma outline_message_list_total_from (l : list segment) :
  Forall (fun i => forall t, exists f t', outline_segment i t = (Ok f, t')) l ->
  forall t, exists s t', outline_message_list l t = (Ok s, t').
Proof.
  intros Hl t. unfold outline_message_list. rewrite outline_loop_fragments.
  unfold bind, ret. destruct (fragments_total l Hl t) as (frs & t' & ->).
  now eexists; eexists.
Qed.

(** Every component whose objects are tagged has a fragment, and the
    fragment of a component other than a text is in brackets. *)
Lemma outline_segment_total (i : segment) :
  tagged i = true ->
  forall t, exists f t',
    outline_segment i t = (Ok f, t') /\ (is_plain i = false -> bracketed f = true).
Proof.
  induction i as [i IH] using segment_children_ind. intros Htag t.
  destruct i; cbn [outline_segment];
    try (eexists; eexists; split; [reflexivity | intros _; solve_bracketed]).
  - eexists; eexists; split; [reflexivity | discriminate].
  - destruct (outline_image_bracketed file url t) as (f & t' & E & Hb).
    exists f, t'. now split.
  - cbn [children] in IH. cbn [tagged] in Htag.
    destruct chain as [|j chain].
    + destruct (Py.truthy_opt message_str);
        [|destruct (Py.truthy_opt sender_nickname || Py.truthy sender_id)];
        eexists; eexists; (split; [reflexivity | intros _; solve_bracketed]).
    + assert (Hl : Forall (fun i => forall t, exists f t',
                              outline_segment i t = (Ok f, t')) (j :: chain)).
      { rewrite Forall_forall in IH. apply Forall_forall. intros k Hk t0.
        rewrite forallb_forall in Htag.
        destruct (IH k Hk (Htag k (proj1 (list_elem_of_In _ _) Hk)) t0)
          as (f & t' & E & _).
        now exists f, t'. }
      destruct (outline_message_list_total_from _ Hl t) as (q & t' & E).
      unfold outline_message_list in E. unfold bind. rewrite E.
      eexists; eexists; (split; [reflexivity | intros _; solve_bracketed]).
  - cbn [tagged] in Htag.
    destruct (outline_other_bracketed o t Htag) as (f & E & Hb).
    exists f, t. now split.
Qed.

(** C1, as the code has it. Every component other than a text, provided
    that the objects of classes that are not imported by name have a type
    tag, gives a fragment in brackets, which is not empty, and raises
    nothing; an object that no test recognises gives its type tag in
    brackets. A text gives its characters, and nothing when it is empty. *)
Theorem outline_segment_bracketed (i : segment) (t : trace)
  (Htag : tagged i = true) (Hnot_text : is_plain i = false) :
  exists fragment t',
    outline_segment i t = (Ok fragment, t')
    /\ bracketed fragment = true
    /\ fragment <> ""
    /\ match i with
       | Other o =>
           unrecognised o = true ->
           fragment = "[" +:+ getattr_str o "type" "" +:+ "]" /\ t' = t
       | _ => True
       end.
Proof.
  destruct (outline_segment_total i Htag t) as (f & t' & E & Hb).
  exists f, t'. specialize (Hb Hnot_text).
  split; [exact E|]. split; [exact Hb|]. split.
  - intros ->. discriminate.
  - destruct i; try exact I. intros Hun.
    cbn [outline_segment] in E. rewrite (outline_other_unrecognised o t Hun) in E.
    unfold getattr_str. destruct (obj_attrs o !! "type"); [|discriminate].
    now inversion E.
Qed.

(** ** What aborts the formatting *)



End Properties.

(** * The module on the collaborators above *)

(** C1, read to the letter, fails on an empty text: its fragment is empty
    and in no brackets. *)
Lemma empty_text_fragment_not_bracketed :
  @outline_segment demo (Plain "") [] = (Ok "", [])
  /\ bracketed "" = false.
Proof. split; reflexivity. Qed.

(** The last arm reads the attribute [type] with no default: an object
    without it that no test recognises raises, and so does the history that
    holds it. *)
Lemma untagged_object_raises :
  @unrecognised demo bare = true
  /\ @outline_segment demo (Other bare) [] = (Raise (AttributeError "type"), [])
  /\ @format_history_for_llm demo [Message None VNone [Other bare]] 20 []
     = (Raise (AttributeError "type"), []).
Proof. repeat split; reflexivity. Qed.

Lemma outline_segment_bracketed_witness :
  tagged (Other widget) = true
  /\ is_plain (Other widget) = false
  /\ @unrecognised demo widget = true
  /\ @outline_segment demo (Other widget) [] = (Ok "[widget]", []).
Proof.
  assert (Htag : tagged (Other widget) = true) by reflexivity.
  assert (Hnt : is_plain (Other widget) = false) by reflexivity.
  assert (Hun : @unrecognised demo widget = true) by reflexivity.
  split; [exact Htag|]. split; [exact Hnt|]. split; [exact Hun|].
  destruct (@outline_segment_bracketed demo (Other widget) [] Htag Hnt)
    as (f & t' & E & _ & _ & Hf).
  destruct (Hf Hun) as [-> ->]. exact E.
Defined.

Lemma image_missing_file_not_captioned_witness :
  @path_exists demo "dog.png" = false
  /\ @outline_segment demo (Image (Some "file:///dog.png") (Some "http://dog")) ["cat.png"]
     = (Ok "[图片: 文件不存在]", ["cat.png"]).
Proof.
  split; [reflexivity|].
  exact (proj1 (@image_missing_file_not_captioned demo "dog.png" (Some "http://dog")
                  ["cat.png"] eq_refl)).
Defined.

Lemma image_caption_fragment_witness :
  @resolved_reference demo (Some "file:///cat.png") None = Some "cat.png"
  /\ @outline_segment demo (Image (Some "file:///cat.png") None) []
     = (Ok "[图片: 一只猫]", ["cat.png"])
  /\ @resolved_reference demo None (Some "boom") = Some "boom"
  /\ @outline_segment demo (Image None (Some "boom")) [] = (Ok "[图片]", ["boom"]).
Proof.
  split; [reflexivity|]. split.
  - exact (@image_caption_fragment demo (Some "file:///cat.png") None "cat.png" [] eq_refl).
  - split; [reflexivity|].
    exact (@image_caption_fragment demo None (Some "boom") "boom" [] eq_refl).
Defined.

(** C4, read to the letter, fails on a share: the title is in title marks
    and the content is not in parentheses. *)
Lemma share_fragment_not_parenthesised :
  @outline_segment demo (Share (VStr "t") (Some "c")) [] = (Ok "[分享:《t》c]", [])
  /\ "[分享:《t》c]" <> "[分享:t(c)]".
Proof. split; [reflexivity | discriminate]. Qed.

Lemma json_payload_outline_witness :
  @json_payload demo (json_object prompt_payload) = true
  /\ obj_attrs (json_object prompt_payload) !! "data" = Some (VStr prompt_payload)
  /\ @outline_segment demo (Other (json_object prompt_payload)) []
     = (Ok "[JSON卡片:draw a cat]", [])
  /\ @outline_segment demo (Other (json_object app_payload)) []
     = (Ok "[小程序:mini]", [])
  /\ @outline_segment demo (Other (json_object "{not json")) []
     = (Ok "[JSON消息]", []).
Proof.
  split; [reflexivity|]. split; [reflexivity|]. split; [|split].
  - exact (@json_payload_outline demo (json_object prompt_payload) prompt_payload []
             eq_refl eq_refl).
  - exact (@json_payload_outline demo (json_object app_payload) app_payload []
             eq_refl eq_refl).
  - exact (@json_payload_outline demo (json_object "{not json") "{not json" []
             eq_refl eq_refl).
Defined.

(** * Further properties of the module *)

Section Further.

Context `{Collaborators}.

Ltac bracketed_fragment :=
  first
    [ reflexivity
    | unfold bracketed; apply andb_true_intro; split;
      [ apply prefix_bracket_app; reflexivity
      | repeat (first [ reflexivity | apply last_is_app_r ]) ] ].

Ltac ok_and_bracketed :=
  eexists; split; [ reflexivity | bracketed_fragment ].

(** ** The window of the history *)

(** X1. With a positive maximum, the history is cut to its last
    [max_messages] messages (to all of them when there are no more than
    that), the retained messages are rendered in their order and the blocks
    are joined by the divider. *)
Theorem format_history_window (history_messages : list message) (max_messages : Z)
        (t : trace) (Hpos : (0 < max_messages)%Z) :
  let kept := drop (length history_messages - Z.to_nat max_messages) history_messages in
  format_history_for_llm history_messages max_messages t
  = (bs <- blocks kept ;; ret (String.concat divider bs)) t
  /\ length kept = Nat.min (length history_messages) (Z.to_nat max_messages).
Proof.
  intros kept. split; [now apply format_history_keeps_last|].
  subst kept. rewrite length_drop. lia.
Qed.

Lemma format_history_drops_front (history_messages : list message)
      (max_messages : Z) (t : trace) :
  (max_messages <= 0)%Z ->
  format_history_for_llm history_messages max_messages t
  = (bs <- blocks (drop (Z.to_nat (- max_messages)) history_messages) ;;
     ret (String.concat divider bs)) t.
Proof.
  intros Hmax.
  destruct history_messages as [|msg rest].
  - now rewrite drop_nil.
  - unfold format_history_for_llm. set (h := msg :: rest).
    replace (max_messages <? Z.of_nat (length h))%Z with true
      by (symmetry; apply Z.ltb_lt; subst h; cbn [length]; lia).
    unfold list_slice_from.
    replace (- max_messages <? 0)%Z with false by (symmetry; apply Z.ltb_ge; lia).
    pose proof (history_loop_blocks (drop (Z.to_nat (- max_messages)) h) 0 "" t) as E.
    cbn [Nat.add] in E. rewrite E. unfold bind, ret.
    destruct (blocks _ t) as [[bs|e] t1]; reflexivity.
Qed.

(** X2. With a maximum that is zero or negative, the slice
    [history_messages[-max_messages:]] starts at index [-max_messages]: the
    first [-max_messages] messages are dropped and all the others are
    rendered, so that a maximum of zero keeps the whole history. *)
Theorem format_history_nonpositive_max (history_messages : list message)
        (max_messages : Z) (t : trace) (Hmax : (max_messages <= 0)%Z) :
  let kept := drop (Z.to_nat (- max_messages)) history_messages in
  format_history_for_llm history_messages max_messages t
  = (bs <- blocks kept ;; ret (String.concat divider bs)) t
  /\ length kept = (length history_messages - Z.to_nat (- max_messages))%nat.
Proof.
  intros kept. split.
  - apply format_history_drops_front. exact Hmax.
  - subst kept. apply length_drop.
Qed.

(** X3. The messages that fall out of the window are not read: a history
    gives what its last [max_messages] messages give alone, whatever the
    older messages hold. *)
Theorem dropped_messages_are_not_read (older kept : list message) (max_messages : Z)
        (t : trace)
  (Hpos : (0 < max_messages)%Z)
  (Hlen : Z.of_nat (length kept) = max_messages) :
  format_history_for_llm (older ++ kept)%list max_messages t
  = format_history_for_llm kept max_messages t.
Proof.
  rewrite !format_history_keeps_last by exact Hpos.
  replace (length (older ++ kept)%list - Z.to_nat max_messages)%nat
    with (length older) by (rewrite length_app; lia).
  replace (length kept - Z.to_nat max_messages)%nat with O by lia.
  now rewrite drop_app_length.
Qed.

(** ** The calls to the captioning client *)

Lemma outline_image_trace (file url : option string) (t : trace) :
  exists f, outline_image file url t
            = (Ok f, (t ++ match resolved_reference file url with
                           | Some ref => [ref]
                           | None => []
                           end)%list).
Proof.
  destruct (resolved_reference file url) as [ref|] eqn:Eref.
  - rewrite (outline_image_resolved _ _ _ _ Eref).
    unfold try_except. rewrite caption_fragment_run.
    destruct (generate_image_caption t ref) as [[[|c r]|]|e]; eexists; reflexivity.
  - rewrite app_nil_r. revert Eref. unfold resolved_reference, outline_image, try_except.
    assert (Hgen : forall c r,
      (if String.prefix "file:///" (String c r)
       then (if path_exists (Py.slice_from 8 (String c r))
             then Some (Py.slice_from 8 (String c r)) else None)
       else Some (String c r)) = None ->
      exists f,
        (let (r0, t') :=
           (if String.prefix "file:///" (Py.str_opt (Some (String c r)))
            then
              if negb (path_exists (Py.slice_from 8 (Py.str_opt (Some (String c r)))))
              then ret "[图片: 文件不存在]"
              else caption_fragment (Py.slice_from 8 (Py.str_opt (Some (String c r))))
            else caption_fragment (Py.str_opt (Some (String c r)))) t in
         match r0 with
         | Ok a => (Ok a, t')
         | Raise _ => ret "[图片]" t'
         end) = (Ok f, t)).
    { intros c r. unfold Py.str_opt.
      destruct (String.prefix "file:///" (String c r)); [|discriminate].
      destruct (path_exists (Py.slice_from 8 (String c r))); [discriminate|].
      intros _. eexists; reflexivity. }
    destruct file as [[|c r]|].
    + change (Py.truthy_opt (Some "")) with false. cbv iota.
      destruct url as [[|c r]|]; intros Eref; try (eexists; reflexivity).
      rewrite truthy_opt_cons. now apply Hgen.
    + rewrite truthy_opt_cons. cbv iota. rewrite truthy_opt_cons. apply Hgen.
    + change (Py.truthy_opt None) with false. cbv iota.
      destruct url as [[|c r]|]; intros Eref; try (eexists; reflexivity).
      rewrite truthy_opt_cons. now apply Hgen.
Qed.

Lemma elif_raise (e : exn) (a b : M string) (t : trace) :
  elif (Raise e) a b t = (Raise e, t).
Proof. reflexivity. Qed.

(** The arms of the objects make no call. *)
Lemma outline_other_trace (o : pyobject) (t : trace) : snd (outline_other o t) = t.
Proof.
  unfold outline_other.
  repeat match goal with
         | |- context [elif (_safe_isinstance o ?c) _ _] =>
             destruct (_safe_isinstance o c) as [[|]|e];
             [ rewrite elif_true;
               first [ reflexivity
                     | destruct (outline_json_bracketed o t) as (f & -> & _);
                       reflexivity ]
             | rewrite elif_false
             | rewrite elif_raise; reflexivity ]
         end.
  destruct (obj_attrs o !! "type"); reflexivity.
Qed.

Lemma calls_of_return {A} (a : A) (t : trace) : calls_as_expected (Ok a, t) t [].
Proof. exists []. split; [now rewrite app_nil_r | reflexivity]. Qed.

Lemma outline_loop_calls (l : list segment) :
  Forall (fun i => forall t, calls_as_expected (outline_segment i t) t (segment_calls i)) l ->
  forall acc t,
    calls_as_expected (outline_loop outline_segment l acc t) t (caption_calls l).
Proof.
  induction 1 as [|i l Hi _ IH]; intros acc t; [apply calls_of_return|].
  cbn [outline_loop]. unfold bind. destruct (Hi t) as (m1 & E1 & K1).
  destruct (outline_segment i t) as [[f|e] t1]; cbn [fst snd] in E1, K1; subst.
  - destruct (IH (acc +:+ f) (t ++ segment_calls i)%list) as (m2 & E2 & K2).
    exists (segment_calls i ++ m2)%list. split; [now rewrite E2, app_assoc|].
    unfold caption_calls. cbn [flat_map]. fold (caption_calls l).
    destruct (fst (outline_loop outline_segment l (acc +:+ f) (t ++ segment_calls i)%list)).
    + now subst.
    + now apply prefix_app.
  - exists m1. split; [reflexivity|]. cbn [fst].
    unfold caption_calls. cbn [flat_map]. now apply prefix_app_r.
Qed.

Lemma outline_segment_calls (i : segment) (t : trace) :
  calls_as_expected (outline_segment i t) t (segment_calls i).
Proof.
  revert t. induction i as [i IH] using segment_children_ind. intros t.
  destruct i; cbn [outline_segment segment_calls]; try apply calls_of_return.
  - destruct (outline_image_trace file url t) as (f & ->).
    eexists. split; reflexivity.
  - cbn [children] in IH. destruct chain as [|j chain].
    + destruct (Py.truthy_opt message_str);
        [|destruct (Py.truthy_opt sender_nickname || Py.truthy sender_id)];
        apply calls_of_return.
    + destruct (outline_loop_calls (j :: chain) IH "" t) as (made & E & K).
      exists made. unfold bind.
      fold (caption_calls (j :: chain)).
      destruct (outline_loop outline_segment (j :: chain) "" t) as [[q|e] t1];
        now split.
  - exists []. rewrite outline_other_trace, app_nil_r. split; [reflexivity|].
    now destruct (fst (outline_other o t)).
Qed.

Lemma captioning_calls_in_order (message_list : list segment) (t : trace) :
  calls_as_expected (outline_message_list message_list t) t (caption_calls message_list).
Proof.
  apply outline_loop_calls, Forall_forall. intros i _. apply outline_segment_calls.
Qed.

(** X4. Outlining a list of components calls the captioning client exactly
    for the images that have a resolved reference, once each, with that
    reference, in the order of the components and of the quoted chains; when
    the outline raises, the calls made are the first of those. Nothing else
    is ever passed to the client. *)
Theorem captioning_calls_are_image_references (message_list : list segment) (t : trace) :
  exists made,
    snd (outline_message_list message_list t) = (t ++ made)%list
    /\ match fst (outline_message_list message_list t) with
       | Ok _ => made = caption_calls message_list
       | Raise _ => made `prefix_of` caption_calls message_list
       end.
Proof. apply captioning_calls_in_order. Qed.

Lemma calls_map {A B} (g : A -> B) (m : M A) (t : trace) (expected : list string) :
  calls_as_expected (m t) t expected ->
  calls_as_expected ((x <- m ;; ret (g x)) t) t expected.
Proof.
  intros (made & E & K). exists made. unfold bind, ret.
  destruct (m t) as [[a|e] t1]; now split.
Qed.

Lemma blocks_calls (msgs : list message) (t : trace) :
  calls_as_expected (blocks msgs t) t (history_calls msgs).
Proof.
  revert t. induction msgs as [|msg rest IH]; intros t; [apply calls_of_return|].
  cbn [blocks]. unfold bind.
  destruct (captioning_calls_in_order (msg_message msg) t) as (m1 & E1 & K1).
  destruct (outline_message_list (msg_message msg) t) as [[c|e] t1];
    cbn [fst snd] in E1, K1; subst.
  - destruct (IH (t ++ caption_calls (msg_message msg))%list) as (m2 & E2 & K2).
    exists (caption_calls (msg_message msg) ++ m2)%list. unfold ret.
    destruct (blocks rest (t ++ caption_calls (msg_message msg))%list) as [[bs|e] t2];
      cbn [fst snd] in *; subst.
    + split; [now rewrite app_assoc | reflexivity].
    + split; [now rewrite app_assoc|]. unfold history_calls. cbn [flat_map].
      now apply prefix_app.
  - exists m1. split; [reflexivity|]. unfold history_calls. cbn [flat_map fst].
    now apply prefix_app_r.
Qed.

(** X5. Formatting a history calls the captioning client for the images of
    the retained messages, in order, and for nothing else: the images of the
    messages that fall out of the window cost no call. *)
Theorem history_calls_are_of_retained_messages (history_messages : list message)
        (max_messages : Z) (t : trace) :
  let kept :=
    if (0 <? max_messages)%Z
    then drop (length history_messages - Z.to_nat max_messages) history_messages
    else drop (Z.to_nat (- max_messages)) history_messages in
  exists made,
    snd (format_history_for_llm history_messages max_messages t) = (t ++ made)%list
    /\ match fst (format_history_for_llm history_messages max_messages t) with
       | Ok _ => made = history_calls kept
       | Raise _ => made `prefix_of` history_calls kept
       end.
Proof.
  intros kept. subst kept. destruct (0 <? max_messages)%Z eqn:E.
  - apply Z.ltb_lt in E. rewrite format_history_keeps_last by exact E.
    apply calls_map, blocks_calls.
  - apply Z.ltb_ge in E. rewrite format_history_drops_front by exact E.
    apply calls_map, blocks_calls.
Qed.

(** ** Composition and failure *)

Lemma fragments_app (l1 l2 : list segment) (t : trace) :
  fragments (l1 ++ l2)%list t
  = (f1 <- fragments l1 ;; f2 <- fragments l2 ;; ret (f1 ++ f2)%list) t.
Proof.
  revert t. induction l1 as [|i l1 IH]; intros t.
  - cbn [fragments app]. unfold bind, ret.
    destruct (fragments l2 t) as [[f2|e] t2]; reflexivity.
  - cbn [fragments app]. unfold bind at 1 2 3 4.
    destruct (outline_segment i t) as [[f|e] t1]; [|reflexivity].
    rewrite IH. unfold bind, ret.
    destruct (fragments l1 t1) as [[f1|e] t2]; [|reflexivity].
    destruct (fragments l2 t2) as [[f2|e] t3]; reflexivity.
Qed.

Lemma concat_fragments_app (f1 f2 : list string) :
  concat_fragments (f1 ++ f2)%list = concat_fragments f1 +:+ concat_fragments f2.
Proof.
  unfold concat_fragments. induction f1 as [|x f1 IH]; [reflexivity|].
  cbn [fold_right app]. now rewrite IH, append_assoc.
Qed.

Lemma outline_message_list_splits (l1 l2 : list segment) (t : trace) :
  outline_message_list (l1 ++ l2)%list t
  = (a <- outline_message_list l1 ;; b <- outline_message_list l2 ;; ret (a +:+ b)) t.
Proof.
  unfold outline_message_list. rewrite outline_loop_fragments.
  unfold bind at 1. rewrite fragments_app.
  unfold bind. rewrite outline_loop_fragments. unfold bind, ret.
  destruct (fragments l1 t) as [[f1|e] t1]; [|reflexivity].
  rewrite outline_loop_fragments. unfold bind, ret.
  destruct (fragments l2 t1) as [[f2|e] t2]; [|reflexivity].
  now rewrite !append_empty_l, concat_fragments_app.
Qed.

(** X6. The outline of two lists of components put end to end is the
    outline of the first followed by the outline of the second, the second
    being made after the first: the calls of the first come first, and when
    the first raises the second is not outlined. *)
Theorem outline_message_list_app (l1 l2 : list segment) (t : trace) :
  outline_message_list (l1 ++ l2)%list t
  = (a <- outline_message_list l1 ;; b <- outline_message_list l2 ;; ret (a +:+ b)) t.
Proof. apply outline_message_list_splits. Qed.


(** X8. A message made of texts only is outlined as its texts, one after
    the other and character for character, without a call to any
    collaborator. *)
Theorem texts_are_outlined_verbatim (texts : list string) (t : trace) :
  outline_message_list (map Plain texts) t = (Ok (concat_fragments texts), t).
Proof.
  unfold outline_message_list. rewrite outline_loop_fragments.
  assert (E : forall t0, fragments (map Plain texts) t0 = (Ok texts, t0)).
  { induction texts as [|x texts IH]; intros t0; [reflexivity|].
    cbn [map fragments]. unfold bind, ret. cbn [outline_segment]. unfold ret.
    now rewrite IH. }
  unfold bind, ret. now rewrite E, append_empty_l.
Qed.

(** ** The dispatch of the objects *)

Lemma outline_other_raises_early (o : pyobject) (e : exn) (t : trace) :
  _safe_isinstance o "RPS" = Raise e -> outline_other o t = (Raise e, t).
Proof. intros E. unfold outline_other. now rewrite E, elif_raise. Qed.

(** X9. [_safe_isinstance] raises when the object has an attribute [type]
    that is [None] or an integer, whatever the class asked for: neither has
    a [lower]. Such an object cannot be outlined, the first test of
    [outline_message_list] raises. With no attribute [type], or with a
    string, the test answers. *)
Theorem safe_isinstance_raises_on_none_or_integer_tag (o : pyobject) (class_name : string)
        (t : trace) :
  match obj_attrs o !! "type" with
  | Some VNone | Some (VInt _) =>
      _safe_isinstance o class_name = Raise (AttributeError "lower")
      /\ outline_segment (Other o) t = (Raise (AttributeError "lower"), t)
  | Some (VStr _) | None => exists b, _safe_isinstance o class_name = Ok b
  end.
Proof.
  destruct (obj_attrs o !! "type") as [[|ty|z]|] eqn:Et.
  - split; [unfold _safe_isinstance; now rewrite Et|].
    apply outline_other_raises_early. unfold _safe_isinstance. now rewrite Et.
  - apply safe_isinstance_tagged. unfold has_type_tag. now rewrite Et.
  - split; [unfold _safe_isinstance; now rewrite Et|].
    apply outline_other_raises_early. unfold _safe_isinstance. now rewrite Et.
  - unfold _safe_isinstance. rewrite Et. destruct (module_globals class_name); eauto.
Qed.

Lemma type_mapping_items (k c : string) :
  type_mapping !! k = Some c ->
  In (k, c)
     [ ("anonymous", "Anonymous"); ("rps", "RPS"); ("dice", "Dice");
       ("shake", "Shake"); ("redbag", "RedBag"); ("poke", "Poke");
       ("forward", "Forward"); ("node", "Node"); ("nodes", "Nodes");
       ("xml", "Xml"); ("json", "Json"); ("cardimage", "CardImage");
       ("tts", "TTS"); ("wechatemoji", "WechatEmoji") ].
Proof.
  intros Hk. apply list_elem_of_In. now apply elem_of_list_to_map_2 in Hk.
Qed.

Lemma tag_in_table_is_recognised (o : pyobject) (ty c : string) :
  obj_attrs o !! "type" = Some (VStr ty) ->
  type_mapping !! Py.lower ty = Some c ->
  unrecognised o = false.
Proof.
  intros Et Hk.
  assert (Hc : _safe_isinstance o c = Ok true).
  { unfold _safe_isinstance. now rewrite Et, Hk, String.eqb_refl. }
  assert (Hin : In c tested_classes).
  { apply type_mapping_items in Hk. cbn in Hk.
    repeat (destruct Hk as [Hk | Hk]; [inversion Hk; subst; cbn; tauto |]).
    contradiction. }
  destruct (unrecognised o) eqn:Eu; [|reflexivity].
  unfold unrecognised in Eu. rewrite forallb_forall in Eu.
  specialize (Eu c Hin). unfold is_not in Eu. now rewrite Hc in Eu.
Qed.

Lemma tag_not_in_table_is_unrecognised (o : pyobject) (ty : string) :
  obj_attrs o !! "type" = Some (VStr ty) ->
  type_mapping !! Py.lower ty = None ->
  forallb (fun c => negb (class_test o c)) tested_classes = true ->
  unrecognised o = true.
Proof.
  intros Et Hk Hcl. unfold unrecognised. apply forallb_forall. intros c Hin.
  rewrite forallb_forall in Hcl. specialize (Hcl c Hin).
  unfold is_not, _safe_isinstance. rewrite Et, Hk.
  unfold class_test in Hcl.
  destruct (module_globals c); [|reflexivity].
  cbn [andb] in Hcl. now destruct (bool_decide (c ∈ obj_mro o)).
Qed.

Lemma safe_isinstance_by_tag (o : pyobject) (ty c c' : string) :
  obj_attrs o !! "type" = Some (VStr ty) ->
  type_mapping !! Py.lower ty = Some c ->
  class_test o c' = false ->
  _safe_isinstance o c' = Ok (String.eqb c c').
Proof.
  intros Et Hk Hc. unfold _safe_isinstance. rewrite Et, Hk.
  destruct (String.eqb c c'); [reflexivity|].
  unfold class_test in Hc. destruct (module_globals c'); [|reflexivity].
  cbn [andb] in Hc. now rewrite Hc.
Qed.

Lemma outline_json_run (o : pyobject) (t : trace) :
  outline_json o t
  = (Ok match obj_attrs o !! "data" with
        | Some (VStr raw) => json_placeholder (json_loads raw)
        | _ => "[JSON消息]"
        end, t).
Proof.
  destruct (obj_attrs o !! "data") as [[|raw|z]|] eqn:Ed;
    try (unfold outline_json; now rewrite Ed).
  now apply outline_json_placeholder.
Qed.

(** The fragment of an object that its tag alone makes known, by the class
    the table gives for the tag. *)
Lemma outline_by_tag (o : pyobject) (ty c : string) (t : trace) :
  obj_attrs o !! "type" = Some (VStr ty) ->
  forallb (fun c => negb (class_test o c)) tested_classes = true ->
  type_mapping !! Py.lower ty = Some c ->
  outline_segment (Other o) t
  = (Ok match c with
        | "RPS" => "[猜拳]"
        | "Dice" => "[骰子]"
        | "Shake" => "[抖一抖]"
        | "Anonymous" => "[匿名]"
        | "RedBag" => "[红包:" +:+ getattr_str o "title" "" +:+ "]"
        | "Poke" => "[戳一戳 对:" +:+ getattr_str o "qq" "" +:+ "]"
        | "Forward" | "Node" | "Nodes" => "[合并转发消息]"
        | "Xml" => "[XML消息]"
        | "Json" =>
            match obj_attrs o !! "data" with
            | Some (VStr raw) => json_placeholder (json_loads raw)
            | _ => "[JSON消息]"
            end
        | "CardImage" => "[卡片图片:" +:+ getattr_str o "source" "" +:+ "]"
        | "TTS" => "[TTS:" +:+ getattr_str o "text" "" +:+ "]"
        | "WechatEmoji" => "[微信表情]"
        | _ => "[" +:+ ty +:+ "]"
        end, t).
Proof.
  intros Et Hcl Hk. cbn [outline_segment]. unfold outline_other.
  assert (Hs : forall c', In c' tested_classes -> _safe_isinstance o c' = Ok (String.eqb c c')).
  { intros c' Hin. apply (safe_isinstance_by_tag o ty c c' Et Hk).
    rewrite forallb_forall in Hcl. specialize (Hcl c' Hin). now destruct (class_test o c'). }
  repeat match goal with
         | |- context [elif (_safe_isinstance o ?c') _ _] =>
             rewrite (Hs c') by (cbn; tauto)
         end.
  clear Hs. apply type_mapping_items in Hk. cbn in Hk.
  repeat (destruct Hk as [Hk | Hk];
          [ injection Hk as _ <-; cbn [String.eqb Ascii.eqb Bool.eqb];
            rewrite ?elif_false, ?elif_true; rewrite ?outline_json_run; reflexivity
          | ]).
  contradiction.
Qed.

Lemma lower_cons_cases (c : ascii) (r : string) :
  Py.lower (String c r) = String (Py.lower_ascii c) (Py.lower r)
  \/ exists r', Py.lower (String c r) = String "k" (Py.lower r').
Proof.
  destruct c as [b0 b1 b2 b3 b4 b5 b6 b7].
  destruct b0, b1, b2, b3, b4, b5, b6, b7; try (left; reflexivity).
  destruct r as [|c2 r2]; [left; reflexivity|].
  destruct c2 as [b0 b1 b2 b3 b4 b5 b6 b7].
  destruct b0, b1, b2, b3, b4, b5, b6, b7; try (left; reflexivity).
  destruct r2 as [|c3 r3]; [left; reflexivity|].
  destruct c3 as [b0 b1 b2 b3 b4 b5 b6 b7].
  destruct b0, b1, b2, b3, b4, b5, b6, b7; try (left; reflexivity).
  right. eexists. reflexivity.
Qed.

(** A lower-cased tag that starts with a letter other than k comes from a
    tag that starts with that letter, in either case. *)
Lemma lower_cons_inv (s : string) (k : ascii) (ks : string) :
  Py.lower s = String k ks -> k <> "k"%char ->
  exists c r, s = String c r /\ Py.lower_ascii c = k /\ Py.lower r = ks.
Proof.
  destruct s as [|c r]; [discriminate|]. intros E Hk.
  destruct (lower_cons_cases c r) as [E' | [r' E']]; rewrite E' in E.
  - injection E as <- <-. now exists c, r.
  - injection E as <- _. now contradiction Hk.
Qed.

Lemma lower_nil_inv (s : string) : Py.lower s = "" -> s = "".
Proof.
  destruct s as [|c r]; [reflexivity|]. intros E.
  destruct (lower_cons_cases c r) as [E' | [r' E']]; rewrite E' in E; discriminate.
Qed.

Ltac open_strings H := repeat (rewrite append_cons in H || rewrite append_empty_l in H).

Ltac first_letter Hl :=
  let c1 := fresh "c" in let r1 := fresh "r" in
  let Hc := fresh "Hc" in
  apply lower_cons_inv in Hl; [destruct Hl as (c1 & r1 & -> & Hc & Hl) | discriminate].

Lemma json_placeholder_is_not_a_short_tag (parsed : result json) (a b c d : ascii) :
  Py.lower_ascii a = "j"%char ->
  json_placeholder parsed <> String "[" (String a (String b (String c (String d "]")))).
Proof.
  intros Ha Ep. unfold json_placeholder in Ep.
  destruct parsed as [[| | | | | |items]|e]; try discriminate Ep.
  destruct (Py.dict_get "prompt" items).
  - open_strings Ep. discriminate Ep.
  - destruct (Py.dict_get "app" items); open_strings Ep; [|discriminate Ep].
    injection Ep as E1 E2. subst. vm_compute in Ha. discriminate.
Qed.

Lemma placeholder_is_not_the_tag (o : pyobject) (ty c : string) :
  type_mapping !! Py.lower ty = Some c ->
  match c with
  | "RPS" => "[猜拳]"
  | "Dice" => "[骰子]"
  | "Shake" => "[抖一抖]"
  | "Anonymous" => "[匿名]"
  | "RedBag" => "[红包:" +:+ getattr_str o "title" "" +:+ "]"
  | "Poke" => "[戳一戳 对:" +:+ getattr_str o "qq" "" +:+ "]"
  | "Forward" | "Node" | "Nodes" => "[合并转发消息]"
  | "Xml" => "[XML消息]"
  | "Json" =>
      match obj_attrs o !! "data" with
      | Some (VStr raw) => json_placeholder (json_loads raw)
      | _ => "[JSON消息]"
      end
  | "CardImage" => "[卡片图片:" +:+ getattr_str o "source" "" +:+ "]"
  | "TTS" => "[TTS:" +:+ getattr_str o "text" "" +:+ "]"
  | "WechatEmoji" => "[微信表情]"
  | _ => "[" +:+ ty +:+ "]"
  end <> "[" +:+ ty +:+ "]".
Proof.
  intros Hk E. apply type_mapping_items in Hk. cbn in Hk.
  repeat (destruct Hk as [Hk | Hk];
          [ injection Hk as Hl <-; symmetry in Hl; cbv iota beta in E | ]);
    [..|contradiction].
  all: try (first_letter Hl; open_strings E; injection E as E1 E2;
            subst; vm_compute in Hc; discriminate).
  - (* Xml *)
    do 3 first_letter Hl. apply lower_nil_inv in Hl as ->.
    open_strings E. discriminate E.
  - (* Json *)
    do 4 first_letter Hl. apply lower_nil_inv in Hl as ->.
    open_strings E.
    destruct (obj_attrs o !! "data") as [[|raw|z]|]; try discriminate E.
    revert E. apply json_placeholder_is_not_a_short_tag. assumption.
  - (* TTS *)
    do 3 first_letter Hl. apply lower_nil_inv in Hl as ->.
    open_strings E. discriminate E.
Qed.

(** X10. Every class of the table [type_mapping] has its arm in
    [outline_message_list], and the tag reaches it: an object that its tag
    alone makes known (a string whose lower case is a key of the table, the
    object being of none of the classes the module binds and looks for) is
    outlined by the arm of the class the table gives for the tag, which is
    one of the classes looked for. *)
Theorem tag_reaches_the_arm_of_its_class (o : pyobject) (ty c : string) (t : trace)
  (Htype : obj_attrs o !! "type" = Some (VStr ty))
  (Hclass : forallb (fun c => negb (class_test o c)) tested_classes = true)
  (Hkey : type_mapping !! Py.lower ty = Some c) :
  In c tested_classes
  /\ outline_segment (Other o) t
     = (Ok match c with
           | "RPS" => "[猜拳]"
           | "Dice" => "[骰子]"
           | "Shake" => "[抖一抖]"
           | "Anonymous" => "[匿名]"
           | "RedBag" => "[红包:" +:+ getattr_str o "title" "" +:+ "]"
           | "Poke" => "[戳一戳 对:" +:+ getattr_str o "qq" "" +:+ "]"
           | "Forward" | "Node" | "Nodes" => "[合并转发消息]"
           | "Xml" => "[XML消息]"
           | "Json" =>
               match obj_attrs o !! "data" with
               | Some (VStr raw) => json_placeholder (json_loads raw)
               | _ => "[JSON消息]"
               end
           | "CardImage" => "[卡片图片:" +:+ getattr_str o "source" "" +:+ "]"
           | "TTS" => "[TTS:" +:+ getattr_str o "text" "" +:+ "]"
           | "WechatEmoji" => "[微信表情]"
           | _ => "[" +:+ ty +:+ "]"
           end, t).
Proof.
  split; [|now apply outline_by_tag].
  apply type_mapping_items in Hkey. cbn in Hkey.
  repeat (destruct Hkey as [Hkey | Hkey]; [inversion Hkey; subst; cbn; tauto |]).
  contradiction.
Qed.

(** X11. An object with a string for type tag, of none of the classes the
    module binds and looks for, is outlined as its tag in brackets, as the
    tag is written, exactly when the tag, in lower case, is not a key of
    [type_mapping]: then no test recognises it and the last arm answers,
    and no collaborator is called. *)
Theorem fallback_iff_tag_not_in_table (o : pyobject) (ty : string) (t : trace)
  (Htype : obj_attrs o !! "type" = Some (VStr ty))
  (Hclass : forallb (fun c => negb (class_test o c)) tested_classes = true) :
  (outline_segment (Other o) t = (Ok ("[" +:+ ty +:+ "]"), t)
   <-> type_mapping !! Py.lower ty = None)
  /\ (unrecognised o = true <-> type_mapping !! Py.lower ty = None).
Proof.
  assert (Hfwd : type_mapping !! Py.lower ty = None -> unrecognised o = true)
    by (intros Hk; now apply (tag_not_in_table_is_unrecognised o ty)).
  split; split.
  - intros E. destruct (type_mapping !! Py.lower ty) as [c|] eqn:Hk; [|reflexivity].
    rewrite (outline_by_tag o ty c t Htype Hclass Hk) in E.
    injection E as E. now apply (placeholder_is_not_the_tag o ty c Hk) in E.
  - intros Hk. cbn [outline_segment].
    rewrite (outline_other_unrecognised o t (Hfwd Hk)), Htype. reflexivity.
  - intros Hu. destruct (type_mapping !! Py.lower ty) as [c|] eqn:Hk; [|reflexivity].
    rewrite (tag_in_table_is_recognised o ty c Htype Hk) in Hu. discriminate.
  - exact Hfwd.
Qed.

Lemma safe_isinstance_untyped (o : pyobject) (c : string) :
  obj_attrs o !! "type" = None -> _safe_isinstance o c = Ok (class_test o c).
Proof.
  intros Et. unfold _safe_isinstance, class_test. rewrite Et.
  now destruct (module_globals c).
Qed.

(** X12. An object without an attribute [type] is outlined exactly when it
    is an instance of one of the classes the module binds and looks for:
    then its fragment is a placeholder in brackets, and otherwise the last
    arm raises [AttributeError], for it reads the attribute with no
    default. *)
Theorem untyped_object_needs_known_class (o : pyobject) (t : trace)
  (Htype : obj_attrs o !! "type" = None) :
  if existsb (class_test o) tested_classes
  then exists f, outline_segment (Other o) t = (Ok f, t) /\ bracketed f = true
  else outline_segment (Other o) t = (Raise (AttributeError "type"), t).
Proof.
  cbn [outline_segment]. unfold tested_classes, classes_before_json, classes_after_json.
  cbn [existsb app]. unfold outline_other.
  rewrite !(safe_isinstance_untyped o _ Htype).
  repeat match goal with
         | |- context [elif (Ok (class_test o ?c)) _ _] =>
             destruct (class_test o c);
             [ rewrite elif_true; cbn [orb];
               first [ apply outline_json_bracketed | ok_and_bracketed ]
             | rewrite elif_false; cbn [orb] ]
         end.
  now rewrite Htype.
Qed.

(** ** Defaults of the blocks *)

Lemma same_render_in_context (m m' : message) (before after : list message) :
  same_render m m' ->
  Forall2 same_render (before ++ m :: after)%list (before ++ m' :: after)%list.
Proof.
  intros Hm. apply Forall2_app.
  - induction before; constructor; auto using same_render_refl.
  - constructor; [exact Hm|].
    induction after; constructor; auto using same_render_refl.
Qed.

(** X13. A timestamp that cannot be converted does not stop the
    formatting: when the timestamp is not a number, or is a number the
    conversion to local time raises on, or is zero, the block of the message
    in the text that is returned has the unknown-time placeholder on its
    time line, and the history is formatted exactly as if the message had no
    timestamp. *)
Theorem unconvertible_timestamp_is_unknown_time (who : option member) (ts : value)
        (content : list segment) (before after : list message) (max_messages : Z)
        (t : trace)
  (Hts : match ts with
         | VInt z => z = 0%Z \/ strftime_local z = None
         | _ => True
         end) :
  let msg := Message who ts content in
  send_time msg = "未知时间"
  /\ format_history_for_llm (before ++ msg :: after)%list max_messages t
     = format_history_for_llm (before ++ Message who VNone content :: after)%list
         max_messages t
  /\ ((0 < max_messages)%Z ->
      (Z.of_nat (length after) < max_messages)%Z ->
      format_history_for_llm (before ++ msg :: after)%list max_messages t
      = (b1 <- blocks (drop (length before + S (length after) - Z.to_nat max_messages)
                            before) ;;
         c <- outline_message_list content ;;
         b2 <- blocks after ;;
         ret (String.concat divider
                (b1 ++ ("发送者: " +:+ sender_name msg +:+ " (ID: " +:+ sender_id_of msg
                        +:+ ")" +:+ LF +:+ "时间: 未知时间" +:+ LF +:+ "内容: " +:+ c)
                    :: b2)%list)) t).
Proof.
  intros msg.
  assert (Et : send_time msg = "未知时间").
  { unfold send_time. cbn [timestamp msg].
    destruct ts as [|s|z]; [reflexivity | now destruct (Py.truthy (VStr s)) |].
    destruct Hts as [-> | Hz]; [reflexivity|].
    rewrite Hz. now destruct (Py.truthy (VInt z)). }
  split; [exact Et|]. split.
  - apply format_history_ext, same_render_in_context.
    split; [reflexivity|]. intros c. unfold message_text. now rewrite Et.
  - intros Hpos Hin. rewrite format_history_block_at by assumption.
    unfold message_text. now rewrite Et.
Qed.

(** X14. A sender without a nickname and without an id (each missing,
    empty or zero) is rendered with both defaults: the block of the message
    in the text that is returned names the unknown user with the id
    unknown, exactly as that of a message that has no sender. *)
Theorem nameless_sender_is_missing_sender (nick : option string) (uid ts : value)
        (content : list segment) (before after : list message) (max_messages : Z)
        (t : trace)
  (Hnick : Py.truthy_opt nick = false)
  (Huid : Py.truthy uid = false) :
  let msg := Message (Some (Member nick uid)) ts content in
  message_text msg "" = message_text (Message None ts content) ""
  /\ format_history_for_llm (before ++ msg :: after)%list max_messages t
     = format_history_for_llm (before ++ Message None ts content :: after)%list
         max_messages t
  /\ ((0 < max_messages)%Z ->
      (Z.of_nat (length after) < max_messages)%Z ->
      format_history_for_llm (before ++ msg :: after)%list max_messages t
      = (b1 <- blocks (drop (length before + S (length after) - Z.to_nat max_messages)
                            before) ;;
         c <- outline_message_list content ;;
         b2 <- blocks after ;;
         ret (String.concat divider
                (b1 ++ ("发送者: 未知用户 (ID: unknown)" +:+ LF
                        +:+ "时间: " +:+ send_time msg +:+ LF +:+ "内容: " +:+ c)
                    :: b2)%list)) t).
Proof.
  intros msg.
  assert (Em : forall c, message_text msg c
                         = "发送者: 未知用户 (ID: unknown)" +:+ LF
                           +:+ "时间: " +:+ send_time msg +:+ LF +:+ "内容: " +:+ c).
  { intros c. unfold message_text, sender_name, sender_id_of.
    cbn [sender nickname user_id msg]. now rewrite Hnick, Huid. }
  assert (Em' : forall c, message_text msg c = message_text (Message None ts content) c).
  { intros c. now rewrite Em. }
  split; [apply Em'|]. split.
  - apply format_history_ext, same_render_in_context. now split.
  - intros Hpos Hin. rewrite format_history_block_at by assumption.
    cbn [msg_message msg]. unfold bind, ret.
    destruct (blocks _ t) as [[b1|e] t1]; [|reflexivity].
    destruct (outline_message_list content t1) as [[c|e] t2]; [|reflexivity].
    now rewrite Em.
Qed.

(** X15. A JSON payload whose attribute [data] is missing or is not a
    string is not parsed: its fragment is the generic placeholder, whatever
    the parser would make of it. *)
Theorem json_payload_without_text_is_generic (o : pyobject) (t : trace)
  (Hjson : json_payload o = true)
  (Hdata : match obj_attrs o !! "data" with
           | Some (VStr _) => False
           | _ => True
           end) :
  outline_segment (Other o) t = (Ok "[JSON消息]", t).
Proof.
  cbn [outline_segment]. rewrite (outline_other_json o Hjson).
  unfold outline_json. now destruct (obj_attrs o !! "data") as [[|raw|z]|].
Qed.

End Further.

(** * The further properties on the collaborators above *)

Lemma format_history_window_witness :
  (0 < 2)%Z
  /\ @format_history_for_llm demo [carol; alice; bob] 2 []
     = (Ok ("发送者: alice (ID: 7)" +:+ LF +:+ "时间: 未知时间" +:+ LF +:+ "内容: hi"
            +:+ LF +:+ "-" +:+ LF +:+
            "发送者: 未知用户 (ID: b0b)" +:+ LF +:+ "时间: 未知时间" +:+ LF
            +:+ "内容: yo[表情:5]"), []).
Proof.
  split; [reflexivity|].
  exact (proj1 (@format_history_window demo [carol; alice; bob] 2 [] eq_refl)).
Defined.

Lemma format_history_nonpositive_max_witness :
  (-2 <= 0)%Z
  /\ @format_history_for_llm demo [carol; alice; bob] (-2) []
     = (Ok ("发送者: 未知用户 (ID: b0b)" +:+ LF +:+ "时间: 未知时间" +:+ LF
            +:+ "内容: yo[表情:5]"), []).
Proof.
  split; [discriminate|].
  exact (proj1 (@format_history_nonpositive_max demo [carol; alice; bob] (-2) []
                  ltac:(discriminate))).
Defined.

Lemma dropped_messages_are_not_read_witness :
  (0 < 2)%Z
  /\ Z.of_nat (length [alice; bob]) = 2%Z
  /\ @format_history_for_llm demo [broken; alice; bob] 2 []
     = @format_history_for_llm demo [alice; bob] 2 [].
Proof.
  split; [reflexivity|]. split; [reflexivity|].
  exact (@dropped_messages_are_not_read demo [broken] [alice; bob] 2 [] eq_refl eq_refl).
Defined.


Lemma tag_reaches_the_arm_of_its_class_witness :
  obj_attrs (PyObject ["Widget"] (<["type" := VStr "SHAKE"]> ∅)) !! "type"
  = Some (VStr "SHAKE")
  /\ forallb (fun c => negb (@class_test demo
                               (PyObject ["Widget"] (<["type" := VStr "SHAKE"]> ∅)) c))
             tested_classes = true
  /\ type_mapping !! Py.lower "SHAKE" = Some "Shake"
  /\ @outline_segment demo (Other (PyObject ["Widget"] (<["type" := VStr "SHAKE"]> ∅))) []
     = (Ok "[抖一抖]", []).
Proof.
  split; [reflexivity|]. split; [reflexivity|]. split; [reflexivity|].
  exact (proj2 (@tag_reaches_the_arm_of_its_class demo
                  (PyObject ["Widget"] (<["type" := VStr "SHAKE"]> ∅))
                  "SHAKE" "Shake" [] eq_refl eq_refl eq_refl)).
Defined.

Lemma fallback_iff_tag_not_in_table_witness :
  obj_attrs widget !! "type" = Some (VStr "widget")
  /\ forallb (fun c => negb (@class_test demo widget c)) tested_classes = true
  /\ type_mapping !! Py.lower "widget" = None
  /\ @outline_segment demo (Other widget) [] = (Ok "[widget]", []).
Proof.
  split; [reflexivity|]. split; [reflexivity|]. split; [reflexivity|].
  exact (proj2 (proj1 (@fallback_iff_tag_not_in_table demo widget "widget" []
                         eq_refl eq_refl))
           eq_refl).
Defined.

Lemma untyped_object_needs_known_class_witness :
  obj_attrs bare !! "type" = None
  /\ existsb (@class_test demo bare) tested_classes = false
  /\ @outline_segment demo (Other bare) [] = (Raise (AttributeError "type"), [])
  /\ obj_attrs rps_instance !! "type" = None
  /\ existsb (@class_test demo_rps rps_instance) tested_classes = true
  /\ exists f, @outline_segment demo_rps (Other rps_instance) [] = (Ok f, [])
               /\ bracketed f = true.
Proof.
  split; [reflexivity|]. split; [reflexivity|].
  split; [exact (@untyped_object_needs_known_class demo bare [] eq_refl)|].
  split; [reflexivity|]. split; [reflexivity|].
  exact (@untyped_object_needs_known_class demo_rps rps_instance [] eq_refl).
Defined.

Lemma unconvertible_timestamp_is_unknown_time_witness :
  @strftime_local demo (-1) = None
  /\ (0 < 20)%Z
  /\ (Z.of_nat (length [bob]) < 20)%Z
  /\ @format_history_for_llm demo
       [Message None (VInt 5) [Plain "hi"]; Message None (VInt (-1)) [Plain "old"]; bob]
       20 []
     = (Ok ("发送者: 未知用户 (ID: unknown)" +:+ LF +:+ "时间: 1970-01-01 00:00:00"
            +:+ LF +:+ "内容: hi"
            +:+ LF +:+ "-" +:+ LF +:+
            "发送者: 未知用户 (ID: unknown)" +:+ LF +:+ "时间: 未知时间" +:+ LF
            +:+ "内容: old"
            +:+ LF +:+ "-" +:+ LF +:+
            "发送者: 未知用户 (ID: b0b)" +:+ LF +:+ "时间: 未知时间" +:+ LF
            +:+ "内容: yo[表情:5]"), []).
Proof.
  split; [reflexivity|]. split; [reflexivity|]. split; [reflexivity|].
  exact (proj2 (proj2 (@unconvertible_timestamp_is_unknown_time demo None (VInt (-1))
                         [Plain "old"] [Message None (VInt 5) [Plain "hi"]] [bob] 20 []
                         (or_intror eq_refl)))
           eq_refl eq_refl).
Defined.

Lemma nameless_sender_is_missing_sender_witness :
  Py.truthy_opt (Some "") = false
  /\ Py.truthy (VInt 0) = false
  /\ (0 < 20)%Z
  /\ (Z.of_nat (length [bob]) < 20)%Z
  /\ @format_history_for_llm demo
       [alice; Message (Some (Member (Some "") (VInt 0))) (VInt 5) [Plain "hi"]; bob] 20 []
     = (Ok ("发送者: alice (ID: 7)" +:+ LF +:+ "时间: 未知时间" +:+ LF +:+ "内容: hi"
            +:+ LF +:+ "-" +:+ LF +:+
            "发送者: 未知用户 (ID: unknown)" +:+ LF +:+ "时间: 1970-01-01 00:00:00"
            +:+ LF +:+ "内容: hi"
            +:+ LF +:+ "-" +:+ LF +:+
            "发送者: 未知用户 (ID: b0b)" +:+ LF +:+ "时间: 未知时间" +:+ LF
            +:+ "内容: yo[表情:5]"), []).
Proof.
  split; [reflexivity|]. split; [reflexivity|].
  split; [reflexivity|]. split; [reflexivity|].
  exact (proj2 (proj2 (@nameless_sender_is_missing_sender demo (Some "") (VInt 0) (VInt 5)
                         [Plain "hi"] [alice] [bob] 20 [] eq_refl eq_refl))
           eq_refl eq_refl).
Defined.

Lemma json_payload_without_text_is_generic_witness :
  @json_payload demo (PyObject ["Json"] (<["type" := VStr "JSON"]> ∅)) = true
  /\ obj_attrs (PyObject ["Json"] (<["type" := VStr "JSON"]> ∅)) !! "data" = None
  /\ @outline_segment demo (Other (PyObject ["Json"] (<["type" := VStr "JSON"]> ∅))) []
     = (Ok "[JSON消息]", []).
Proof.
  split; [reflexivity|]. split; [reflexivity|].
  exact (@json_payload_without_text_is_generic demo
           (PyObject ["Json"] (<["type" := VStr "JSON"]> ∅)) [] eq_refl I).
Defined.

Lemma captioning_calls_are_image_references_witness :
  @caption_calls demo (msg_message photos) = ["cat.png"; "boom"]
  /\ snd (@outline_message_list demo (msg_message photos) []) = ["cat.png"; "boom"].
Proof.
  split; [reflexivity|].
  destruct (@captioning_calls_are_image_references demo (msg_message photos) [])
    as (made & E & K).
  rewrite E. change (fst (@outline_message_list demo (msg_message photos) []))
    with (@Ok string "[图片: 一只猫] and [回复(bob(42): [图片])]") in K.
  cbv beta iota in K. now rewrite K.
Defined.

Lemma history_calls_are_of_retained_messages_witness :
  @history_calls demo [alice; photos] = ["cat.png"; "boom"]
  /\ snd (@format_history_for_llm demo [photos; alice; photos] 2 []) = ["cat.png"; "boom"].
Proof.
  split; [reflexivity|].
  destruct (@history_calls_are_of_retained_messages demo [photos; alice; photos] 2 [])
    as (made & E & K).
  rewrite E. destruct (fst (@format_history_for_llm demo [photos; alice; photos] 2 [])) eqn:F.
  - now rewrite K.
  - discriminate F.
Defined.

Lemma zero_timestamp_is_unknown_time_witness :
  @strftime_local demo 0 = Some "1970-01-01 00:00:00"
  /\ (0 < 20)%Z
  /\ (Z.of_nat (length [bob]) < 20)%Z
  /\ @format_history_for_llm demo
       [Message None (VInt 5) [Plain "hi"];
        Message (Some (Member (Some "zed") (VInt 9))) (VInt 0) [Plain "late"]; bob]
       20 []
     = (Ok ("发送者: 未知用户 (ID: unknown)" +:+ LF +:+ "时间: 1970-01-01 00:00:00"
            +:+ LF +:+ "内容: hi"
            +:+ LF +:+ "-" +:+ LF +:+
            "发送者: zed (ID: 9)" +:+ LF +:+ "时间: 未知时间" +:+ LF +:+ "内容: late"
            +:+ LF +:+ "-" +:+ LF +:+
            "发送者: 未知用户 (ID: b0b)" +:+ LF +:+ "时间: 未知时间" +:+ LF
            +:+ "内容: yo[表情:5]"), []).
Proof.
  split; [reflexivity|]. split; [reflexivity|]. split; [reflexivity|].
  exact (proj2 (proj2 (@zero_timestamp_is_unknown_time demo
                         (Some (Member (Some "zed") (VInt 9))) [Plain "late"]
                         [Message None (VInt 5) [Plain "hi"]] [bob] 20 []))
           eq_refl eq_refl).
Defined.
